(** * Admin forms, record stores and the fallback image of the portfolio site

    A shallow embedding of [src/pages/admin/AdminProjects.tsx] (the
    [AdminProjects] and [AdminBlog] components) and of
    [src/components/Image.tsx], with the properties their specification
    states about them.

    React components are modelled as state machines: the [useState] cells of a
    component form a record, every event handler is a function from the state
    (and from what the environment answers: the clock, the confirmation
    dialog, the remote service) to the next state and to the list of effects
    the handler performs on the outside world, in program order. A handler
    runs to its end before the next event is taken: the interleaving of two
    pending requests of [AdminProjects] is not modelled. *)

From Stdlib Require Import List NArith ZArith Bool Lia.
From Stdlib Require Strings.String Strings.Ascii DecimalString.
Import ListNotations.
Import String.StringSyntax.
Open Scope string_scope.
Open Scope list_scope.

Set Implicit Arguments.
Set Warnings "-register-all".

(** ** JavaScript strings

    A JavaScript string is a sequence of UTF-16 code units; [length] counts
    code units and [trim] works on them, so a string is a [list N] here. *)

Module JS.

Definition jsstring := list N.

(** Source literals are written as Rocq strings (UTF-8 bytes) and decoded to
    code units, so that the literals of the source can be kept as they are. *)
Fixpoint utf16_of_utf8 (bs : list N) : jsstring :=
  match bs with
  | [] => []
  | b :: rest =>
      if (b <? 128)%N then b :: utf16_of_utf8 rest
      else if (b <? 224)%N then
        match rest with
        | b1 :: rest1 =>
            (N.land b 31 * 64 + N.land b1 63)%N :: utf16_of_utf8 rest1
        | [] => [b]
        end
      else if (b <? 240)%N then
        match rest with
        | b1 :: b2 :: rest2 =>
            (N.land b 15 * 4096 + N.land b1 63 * 64 + N.land b2 63)%N
              :: utf16_of_utf8 rest2
        | _ => b :: rest
        end
      else
        match rest with
        | b1 :: b2 :: b3 :: rest3 =>
            let cp := (N.land b 7 * 262144 + N.land b1 63 * 4096
                       + N.land b2 63 * 64 + N.land b3 63)%N in
            let v := (cp - 65536)%N in
            (55296 + v / 1024)%N :: (56320 + v mod 1024)%N
              :: utf16_of_utf8 rest3
        | _ => b :: rest
        end
  end.

Definition lit (s : String.string) : jsstring :=
  utf16_of_utf8 (map Ascii.N_of_ascii (String.list_ascii_of_string s)).

(** A literal in which the apostrophe stands for the double quote, for JSON
    texts. *)
Definition lit_q (s : String.string) : jsstring :=
  map (fun c => if (c =? 39)%N then 34%N else c) (lit s).

(** [===] on strings. *)
Fixpoint str_eqb (a b : jsstring) : bool :=
  match a, b with
  | [], [] => true
  | x :: a', y :: b' => (x =? y)%N && str_eqb a' b'
  | _, _ => false
  end.

(** A string is truthy when it is not the empty string. *)
Definition truthy (s : jsstring) : bool :=
  match s with [] => false | _ :: _ => true end.

(** [a || b] on strings. *)
Definition or_else (a b : jsstring) : jsstring :=
  if truthy a then a else b.

(** White space and line terminators, the code units [String.prototype.trim]
    strips (ECMA-262, WhiteSpace and LineTerminator). *)
Definition is_trim_space (c : N) : bool :=
  ((9 <=? c) && (c <=? 13) || (c =? 32) || (c =? 160) || (c =? 5760)
   || (8192 <=? c) && (c <=? 8202) || (c =? 8232) || (c =? 8233)
   || (c =? 8239) || (c =? 8287) || (c =? 12288) || (c =? 65279))%N.

Fixpoint trim_start (s : jsstring) : jsstring :=
  match s with
  | [] => []
  | c :: s' => if is_trim_space c then trim_start s' else s
  end.

Definition trim (s : jsstring) : jsstring :=
  rev (trim_start (rev (trim_start s))).

(** [Number.prototype.toString] on an integer time value: decimal digits,
    with a sign when negative. *)
Definition toString (n : Z) : jsstring :=
  lit (DecimalString.NilZero.string_of_int (Z.to_int n)).

End JS.

Import JS.

(** ** JSON text

    [JSON.parse] and [JSON.stringify] are built-ins of the platform, not code
    of the repository; they are modelled after the JSON grammar (ECMA-404)
    and the quoting rules of ECMA-262 (QuoteJSONString). *)

Module JSON.

Inductive json : Type :=
| JNull
| JBool (b : bool)
| JNumber (lexeme : jsstring)
| JString (s : jsstring)
| JArray (items : list json)
| JObject (members : list (jsstring * json)).

(** The outcome of a parsing function: a value and the text left, a syntax
    error (the [SyntaxError] that [JSON.parse] throws), or fuel used up. *)
Inductive res (A : Type) : Type :=
| Ok (a : A) (rest : jsstring)
| SyntaxError
| OutOfFuel.
Arguments SyntaxError {A}.
Arguments OutOfFuel {A}.

Definition bind {A B} (r : res A) (k : A -> jsstring -> res B) : res B :=
  match r with
  | Ok a rest => k a rest
  | SyntaxError => SyntaxError
  | OutOfFuel => OutOfFuel
  end.

Definition is_ws (c : N) : bool :=
  ((c =? 32) || (c =? 9) || (c =? 10) || (c =? 13))%N.

Fixpoint skip_ws (s : jsstring) : jsstring :=
  match s with
  | [] => []
  | c :: s' => if is_ws c then skip_ws s' else s
  end.

Definition is_digit (c : N) : bool := ((48 <=? c) && (c <=? 57))%N.

Definition hex_value (c : N) : option N :=
  if is_digit c then Some (c - 48)%N
  else if ((65 <=? c) && (c <=? 70))%N then Some (c - 55)%N
  else if ((97 <=? c) && (c <=? 102))%N then Some (c - 87)%N
  else None.

Definition hex4 (a b c d : N) : option N :=
  match hex_value a, hex_value b, hex_value c, hex_value d with
  | Some x, Some y, Some z, Some w => Some (x * 4096 + y * 256 + z * 16 + w)%N
  | _, _, _, _ => None
  end.

Definition unescape (e : N) : option N :=
  if (e =? 34)%N then Some 34%N
  else if (e =? 92)%N then Some 92%N
  else if (e =? 47)%N then Some 47%N
  else if (e =? 98)%N then Some 8%N
  else if (e =? 102)%N then Some 12%N
  else if (e =? 110)%N then Some 10%N
  else if (e =? 114)%N then Some 13%N
  else if (e =? 116)%N then Some 9%N
  else None.

(** The characters of a string literal, after its opening quote. *)
Fixpoint parse_chars (s : jsstring) (acc : jsstring) : res jsstring :=
  match s with
  | [] => SyntaxError
  | c :: r =>
      if (c =? 34)%N then Ok (rev acc) r
      else if (c =? 92)%N then
        match r with
        | [] => SyntaxError
        | e :: r1 =>
            if (e =? 117)%N then
              match r1 with
              | a :: b :: c' :: d :: r2 =>
                  match hex4 a b c' d with
                  | Some u => parse_chars r2 (u :: acc)
                  | None => SyntaxError
                  end
              | _ => SyntaxError
              end
            else
              match unescape e with
              | Some u => parse_chars r1 (u :: acc)
              | None => SyntaxError
              end
        end
      else if (c <? 32)%N then SyntaxError
      else parse_chars r (c :: acc)
  end.

Fixpoint span_digits (s : jsstring) : jsstring * jsstring :=
  match s with
  | [] => ([], [])
  | c :: s' =>
      if is_digit c then let (ds, r) := span_digits s' in (c :: ds, r)
      else ([], s)
  end.

(** A number: an optional minus sign, an integer part (a single zero, or a
    non-zero digit and more digits), an optional fraction (a dot and at least
    one digit) and an optional exponent (e or E, an optional sign, at least
    one digit). A number is kept as its lexeme. *)
Definition parse_int (s : jsstring) : res jsstring :=
  match s with
  | [] => SyntaxError
  | d :: r =>
      if (d =? 48)%N then Ok [d] r
      else if is_digit d then let (ds, r') := span_digits r in Ok (d :: ds) r'
      else SyntaxError
  end.

Definition parse_frac (s : jsstring) : res jsstring :=
  match s with
  | c :: r =>
      if (c =? 46)%N then
        match span_digits r with
        | ([], _) => SyntaxError
        | (ds, r') => Ok (c :: ds) r'
        end
      else Ok [] s
  | [] => Ok [] s
  end.

Definition parse_exp (s : jsstring) : res jsstring :=
  match s with
  | c :: r =>
      if ((c =? 101) || (c =? 69))%N then
        let (sign, r1) :=
          match r with
          | g :: r0 => if ((g =? 43) || (g =? 45))%N then ([g], r0) else ([], r)
          | [] => ([], r)
          end in
        match span_digits r1 with
        | ([], _) => SyntaxError
        | (ds, r') => Ok (c :: sign ++ ds) r'
        end
      else Ok [] s
  | [] => Ok [] s
  end.

Definition parse_number (s : jsstring) : res jsstring :=
  let (sign, s1) :=
    match s with
    | c :: r => if (c =? 45)%N then ([c], r) else ([], s)
    | [] => ([], s)
    end in
  bind (parse_int s1) (fun i s2 =>
  bind (parse_frac s2) (fun f s3 =>
  bind (parse_exp s3) (fun e s4 =>
  Ok (sign ++ i ++ f ++ e) s4))).

Fixpoint strip_prefix (p s : jsstring) : option jsstring :=
  match p, s with
  | [], _ => Some s
  | x :: p', y :: s' => if (x =? y)%N then strip_prefix p' s' else None
  | _ :: _, [] => None
  end.

Definition parse_word (w : String.string) (v : json) (s : jsstring) : res json :=
  match strip_prefix (lit w) s with
  | Some r => Ok v r
  | None => SyntaxError
  end.

Fixpoint parse_value (fuel : nat) (s : jsstring) : res json :=
  match fuel with
  | O => OutOfFuel
  | S n =>
      match skip_ws s with
      | [] => SyntaxError
      | c :: r =>
          if (c =? 34)%N then
            bind (parse_chars r []) (fun str r' => Ok (JString str) r')
          else if (c =? 91)%N then
            match skip_ws r with
            | c1 :: r1 =>
                if (c1 =? 93)%N then Ok (JArray []) r1
                else parse_elements n r []
            | [] => SyntaxError
            end
          else if (c =? 123)%N then
            match skip_ws r with
            | c1 :: r1 =>
                if (c1 =? 125)%N then Ok (JObject []) r1
                else parse_members n r []
            | [] => SyntaxError
            end
          else if (c =? 116)%N then parse_word "true" (JBool true) (c :: r)
          else if (c =? 102)%N then parse_word "false" (JBool false) (c :: r)
          else if (c =? 110)%N then parse_word "null" JNull (c :: r)
          else bind (parse_number (c :: r)) (fun l r' => Ok (JNumber l) r')
      end
  end

with parse_elements (fuel : nat) (s : jsstring) (acc : list json) : res json :=
  match fuel with
  | O => OutOfFuel
  | S n =>
      bind (parse_value n s) (fun v r =>
      match skip_ws r with
      | c :: r' =>
          if (c =? 44)%N then parse_elements n r' (v :: acc)
          else if (c =? 93)%N then Ok (JArray (rev (v :: acc))) r'
          else SyntaxError
      | [] => SyntaxError
      end)
  end

with parse_members (fuel : nat) (s : jsstring)
                   (acc : list (jsstring * json)) : res json :=
  match fuel with
  | O => OutOfFuel
  | S n =>
      match skip_ws s with
      | c :: r =>
          if (c =? 34)%N then
            bind (parse_chars r []) (fun k r1 =>
            match skip_ws r1 with
            | c1 :: r2 =>
                if (c1 =? 58)%N then
                  bind (parse_value n r2) (fun v r3 =>
                  match skip_ws r3 with
                  | c2 :: r4 =>
                      if (c2 =? 44)%N then parse_members n r4 ((k, v) :: acc)
                      else if (c2 =? 125)%N
                           then Ok (JObject (rev ((k, v) :: acc))) r4
                      else SyntaxError
                  | [] => SyntaxError
                  end)
                else SyntaxError
            | [] => SyntaxError
            end)
          else SyntaxError
      | [] => SyntaxError
      end
  end.

(** Fuel that is enough for a text: every call either consumes a character
    or passes from a container to its first item. *)
Definition fuel_for (s : jsstring) : nat := 2 * length s + 1.

(** [JSON.parse text]: [None] stands for the thrown [SyntaxError]. *)
Definition parse (text : jsstring) : option json :=
  match parse_value (fuel_for text) text with
  | Ok v r => match skip_ws r with [] => Some v | _ :: _ => None end
  | SyntaxError => None
  | OutOfFuel => None
  end.

(** The property of an object read with [o.k]: the last member named [k]. *)
Fixpoint get (k : jsstring) (members : list (jsstring * json)) : option json :=
  match members with
  | [] => None
  | (k', v) :: ms =>
      match get k ms with
      | Some v' => Some v'
      | None => if str_eqb k' k then Some v else None
      end
  end.

Definition hex_digit (d : N) : N := if (d <? 10)%N then (48 + d)%N else (87 + d)%N.

Definition unicode_escape (c : N) : jsstring :=
  [92; 117; hex_digit (c / 4096); hex_digit ((c / 256) mod 16);
   hex_digit ((c / 16) mod 16); hex_digit (c mod 16)]%N.

Definition is_high_surrogate (c : N) : bool := ((55296 <=? c) && (c <=? 56319))%N.
Definition is_low_surrogate (c : N) : bool := ((56320 <=? c) && (c <=? 57343))%N.

Fixpoint escape (s : jsstring) : jsstring :=
  match s with
  | [] => []
  | c :: r =>
      if (c =? 34)%N then [92; 34]%N ++ escape r
      else if (c =? 92)%N then [92; 92]%N ++ escape r
      else if (c =? 8)%N then [92; 98]%N ++ escape r
      else if (c =? 12)%N then [92; 102]%N ++ escape r
      else if (c =? 10)%N then [92; 110]%N ++ escape r
      else if (c =? 13)%N then [92; 114]%N ++ escape r
      else if (c =? 9)%N then [92; 116]%N ++ escape r
      else if (c <? 32)%N then unicode_escape c ++ escape r
      else if is_high_surrogate c then
        match r with
        | d :: r' =>
            if is_low_surrogate d then c :: d :: escape r'
            else unicode_escape c ++ escape r
        | [] => unicode_escape c
        end
      else if is_low_surrogate c then unicode_escape c ++ escape r
      else c :: escape r
  end.

(** [JSON.stringify] of a string. *)
Definition quote (s : jsstring) : jsstring := 34%N :: escape s ++ [34%N].

End JSON.

(** ** The record types of [types.ts] *)

Module Project.
Record t : Type := mk {
  id : jsstring;
  title : jsstring;
  description : jsstring;
  image : option jsstring;
  link : option jsstring;
  date : jsstring;
  tags : list jsstring
}.
End Project.

Module BlogPost.
Record t : Type := mk {
  id : jsstring;
  title : jsstring;
  content : jsstring;
  date : jsstring
}.
End BlogPost.

(** ** Drafts: the [formData] state of the two forms *)

Module ProjectDraft.
Record t : Type := mk {
  title : jsstring;
  description : jsstring;
  image : jsstring;
  link : jsstring;
  tags : list jsstring
}.
End ProjectDraft.

Module BlogDraft.
Record t : Type := mk {
  title : jsstring;
  content : jsstring
}.
End BlogDraft.

(** ** Effects

    What a handler does to the outside world, in program order. The remote
    service behind [projectsApi] is an external collaborator: a handler's
    requests appear as effects, the service's answers are inputs of the
    handler. *)

Inductive Effect : Type :=
| Confirm (message : jsstring)
| LocalStorageSet (key value : jsstring)
| ApiGetAll
| ApiCreate (data : ProjectDraft.t)
| ApiUpdate (id : jsstring) (data : ProjectDraft.t)
| ApiDelete (id : jsstring)
| ConsoleError.

(** Device storage: the value under each key, [None] for [null]. *)
Definition Storage : Type := jsstring -> option jsstring.

Definition getItem (sto : Storage) (key : jsstring) : option jsstring := sto key.

Definition setItem (sto : Storage) (key value : jsstring) : Storage :=
  fun k => if str_eqb k key then Some value else sto k.

Definition apply_effect (sto : Storage) (e : Effect) : Storage :=
  match e with
  | LocalStorageSet key value => setItem sto key value
  | _ => sto
  end.

Definition apply_effects (tr : list Effect) (sto : Storage) : Storage :=
  fold_left apply_effect tr sto.

(** A request that changes the collection of a record store. *)
Definition is_store_write (e : Effect) : bool :=
  match e with
  | LocalStorageSet _ _ | ApiCreate _ | ApiUpdate _ _ | ApiDelete _ => true
  | _ => false
  end.

Definition is_confirm (e : Effect) : bool :=
  match e with Confirm _ => true | _ => false end.

(** Every write to a record store in the trace comes after a confirmation
    dialog; [asked] tells whether one was shown already. *)
Fixpoint confirmed_writes (asked : bool) (tr : list Effect) : bool :=
  match tr with
  | [] => true
  | e :: tr' =>
      if is_store_write e then asked && confirmed_writes asked tr'
      else confirmed_writes (asked || is_confirm e) tr'
  end.

(** ** [AdminBlog] *)

Module AdminBlog.

(** The error annotations. A key that holds [undefined] (the title's handler
    leaves one) is read like a missing key: the component reads
    [formErrors.title] only, and applies [Object.keys] only to the object
    that [validateForm] has just built, whose keys all hold messages. *)
Module FormErrors.
Record t : Type := mk {
  title : option jsstring;
  content : option jsstring
}.
(** [{}] *)
Definition empty : t := mk None None.
(** [Object.keys(errors)] of an object whose keys were assigned strings. *)
Definition keys (e : t) : list jsstring :=
  (match title e with Some _ => [lit "title"] | None => [] end)
  ++ (match content e with Some _ => [lit "content"] | None => [] end).
End FormErrors.

Record State : Type := mkState {
  posts : list BlogPost.t;
  editingPost : option BlogPost.t;
  formData : BlogDraft.t;
  formErrors : FormErrors.t
}.

Definition setPosts (v : list BlogPost.t) (st : State) : State :=
  mkState v (editingPost st) (formData st) (formErrors st).
Definition setEditingPost (v : option BlogPost.t) (st : State) : State :=
  mkState (posts st) v (formData st) (formErrors st).
Definition setFormData (v : BlogDraft.t) (st : State) : State :=
  mkState (posts st) (editingPost st) v (formErrors st).
Definition setFormErrors (v : FormErrors.t) (st : State) : State :=
  mkState (posts st) (editingPost st) (formData st) v.

(** The [useState] initial values. *)
Definition initial : State :=
  mkState [] None (BlogDraft.mk (lit "") (lit "")) FormErrors.empty.

(** The errors that [validateForm] collects in its local [errors] object. *)
Definition collect_errors (d : BlogDraft.t) : FormErrors.t :=
  let errors := FormErrors.empty in
  let errors :=
    if negb (truthy (trim (BlogDraft.title d))) then
      FormErrors.mk (Some (lit "Başlık zorunludur")) (FormErrors.content errors)
    else if length (BlogDraft.title d) <? 3 then
      FormErrors.mk (Some (lit "Başlık en az 3 karakter olmalıdır"))
                    (FormErrors.content errors)
    else errors in
  let errors :=
    if negb (truthy (trim (BlogDraft.content d))) then
      FormErrors.mk (FormErrors.title errors) (Some (lit "İçerik zorunludur"))
    else if length (BlogDraft.content d) <? 50 then
      FormErrors.mk (FormErrors.title errors)
                    (Some (lit "İçerik en az 50 karakter olmalıdır"))
    else errors in
  errors.

Definition validateForm (st : State) : State * bool :=
  let errors := collect_errors (formData st) in
  (setFormErrors errors st, length (FormErrors.keys errors) =? 0).

Definition resetForm (st : State) : State :=
  setFormData (BlogDraft.mk (lit "") (lit "")) (setEditingPost None st).

(** The clock, as the handler reads it: [Date.now()] and
    [new Date().toISOString()]. *)
Record Clock : Type := mkClock {
  now : Z;
  toISOString : jsstring
}.

(** [JSON.stringify] of a [BlogPost[]]: objects with the keys in the order in
    which [handleSubmit] writes them. *)
Definition stringify_post (p : BlogPost.t) : jsstring :=
  lit "{" ++ JSON.quote (lit "id") ++ lit ":" ++ JSON.quote (BlogPost.id p)
  ++ lit "," ++ JSON.quote (lit "title") ++ lit ":" ++ JSON.quote (BlogPost.title p)
  ++ lit "," ++ JSON.quote (lit "content") ++ lit ":"
  ++ JSON.quote (BlogPost.content p)
  ++ lit "," ++ JSON.quote (lit "date") ++ lit ":" ++ JSON.quote (BlogPost.date p)
  ++ lit "}".

Fixpoint join_comma (xs : list jsstring) : jsstring :=
  match xs with
  | [] => []
  | [x] => x
  | x :: rest => x ++ lit "," ++ join_comma rest
  end.

Definition stringify (ps : list BlogPost.t) : jsstring :=
  lit "[" ++ join_comma (map stringify_post ps) ++ lit "]".

(** [editingPost?.f || d] *)
Definition field_or (f : BlogPost.t -> jsstring) (editing : option BlogPost.t)
                    (d : jsstring) : jsstring :=
  match editing with
  | Some ep => or_else (f ep) d
  | None => d
  end.

Definition handleSubmit (clock : Clock) (st : State) : State * list Effect :=
  let (st1, valid) := validateForm st in
  if negb valid then (st1, [])
  else
    let newPost :=
      BlogPost.mk (field_or BlogPost.id (editingPost st) (toString (now clock)))
                  (BlogDraft.title (formData st))
                  (BlogDraft.content (formData st))
                  (field_or BlogPost.date (editingPost st) (toISOString clock)) in
    let updatedPosts :=
      match editingPost st with
      | Some ep =>
          map (fun p => if str_eqb (BlogPost.id p) (BlogPost.id ep)
                        then newPost else p) (posts st)
      | None => posts st ++ [newPost]
      end in
    (resetForm (setPosts updatedPosts st1),
     [LocalStorageSet (lit "blogPosts") (stringify updatedPosts)]).

Definition handleEdit (post : BlogPost.t) (st : State) : State :=
  setFormData (BlogDraft.mk (BlogPost.title post) (BlogPost.content post))
              (setEditingPost (Some post) st).

Definition handleDelete (id : jsstring) (st : State) : State * list Effect :=
  let updatedPosts :=
    filter (fun p => negb (str_eqb (BlogPost.id p) id)) (posts st) in
  (setPosts updatedPosts st,
   [LocalStorageSet (lit "blogPosts") (stringify updatedPosts)]).

(** The [onChange] handlers of the two inputs. *)
Definition onTitleChange (value : jsstring) (st : State) : State :=
  setFormErrors (FormErrors.mk None (FormErrors.content (formErrors st)))
    (setFormData (BlogDraft.mk value (BlogDraft.content (formData st))) st).

Definition onContentChange (value : jsstring) (st : State) : State :=
  setFormData (BlogDraft.mk (BlogDraft.title (formData st)) value) st.

(** The JSON value of a record. *)
Definition json_of_post (p : BlogPost.t) : JSON.json :=
  JSON.JObject [(lit "id", JSON.JString (BlogPost.id p));
                (lit "title", JSON.JString (BlogPost.title p));
                (lit "content", JSON.JString (BlogPost.content p));
                (lit "date", JSON.JString (BlogPost.date p))].

(** The value that [JSON.parse] returned, read at the type the component
    declares for it ([BlogPost[]]). *)
Definition as_string (v : option JSON.json) : option jsstring :=
  match v with Some (JSON.JString s) => Some s | _ => None end.

Definition as_post (v : JSON.json) : option BlogPost.t :=
  match v with
  | JSON.JObject ms =>
      match as_string (JSON.get (lit "id") ms),
            as_string (JSON.get (lit "title") ms),
            as_string (JSON.get (lit "content") ms),
            as_string (JSON.get (lit "date") ms) with
      | Some i, Some t, Some c, Some d => Some (BlogPost.mk i t c d)
      | _, _, _, _ => None
      end
  | _ => None
  end.

Fixpoint as_all (vs : list JSON.json) : option (list BlogPost.t) :=
  match vs with
  | [] => Some []
  | v :: vs' =>
      match as_post v, as_all vs' with
      | Some p, Some ps => Some (p :: ps)
      | _, _ => None
      end
  end.

Definition as_posts (v : JSON.json) : option (list BlogPost.t) :=
  match v with
  | JSON.JArray vs => as_all vs
  | _ => None
  end.

(** What the specification says of a submit that updates the record [ep]:
    every record with the id of [ep] takes the fields of the draft and keeps
    its own id and date, every other record is kept, each at its place. *)
Definition updated_in_place (draft : BlogDraft.t) (ep : BlogPost.t)
                            (before after : list BlogPost.t) : Prop :=
  length after = length before
  /\ forall i p, nth_error before i = Some p ->
       nth_error after i =
       Some (if str_eqb (BlogPost.id p) (BlogPost.id ep)
             then BlogPost.mk (BlogPost.id p) (BlogDraft.title draft)
                              (BlogDraft.content draft) (BlogPost.date p)
             else p).

(** What the mount effect does: it completes with a state, or the error that
    [JSON.parse] threw leaves the effect, or the parsed value is not what
    the declared type says and the state is no [BlogPost[]] any more. *)
Inductive MountResult : Type :=
| Mounted (st : State)
| MountedIllTyped (v : JSON.json)
| MountThrew.

Definition mountEffect (sto : Storage) (st : State) : MountResult :=
  match getItem sto (lit "blogPosts") with
  | None => Mounted st
  | Some storedPosts =>
      if truthy storedPosts then
        match JSON.parse storedPosts with
        | None => MountThrew
        | Some v =>
            match as_posts v with
            | Some ps => Mounted (setPosts ps st)
            | None => MountedIllTyped v
            end
        end
      else Mounted st
  end.

End AdminBlog.

(** ** [AdminProjects] *)

Module AdminProjects.

Module FormErrors.
Record t : Type := mk {
  title : option jsstring;
  description : option jsstring;
  image : option jsstring;
  link : option jsstring
}.
Definition empty : t := mk None None None None.
Definition keys (e : t) : list jsstring :=
  (match title e with Some _ => [lit "title"] | None => [] end)
  ++ (match description e with Some _ => [lit "description"] | None => [] end)
  ++ (match image e with Some _ => [lit "image"] | None => [] end)
  ++ (match link e with Some _ => [lit "link"] | None => [] end).
End FormErrors.

Record State : Type := mkState {
  projects : list Project.t;
  editingProject : option Project.t;
  loading : bool;
  error : option jsstring;
  formData : ProjectDraft.t;
  formErrors : FormErrors.t
}.

Definition setProjects (v : list Project.t) (st : State) : State :=
  mkState v (editingProject st) (loading st) (error st) (formData st)
          (formErrors st).
Definition setEditingProject (v : option Project.t) (st : State) : State :=
  mkState (projects st) v (loading st) (error st) (formData st) (formErrors st).
Definition setLoading (v : bool) (st : State) : State :=
  mkState (projects st) (editingProject st) v (error st) (formData st)
          (formErrors st).
Definition setError (v : option jsstring) (st : State) : State :=
  mkState (projects st) (editingProject st) (loading st) v (formData st)
          (formErrors st).
Definition setFormData (v : ProjectDraft.t) (st : State) : State :=
  mkState (projects st) (editingProject st) (loading st) (error st) v
          (formErrors st).
Definition setFormErrors (v : FormErrors.t) (st : State) : State :=
  mkState (projects st) (editingProject st) (loading st) (error st)
          (formData st) v.

Definition emptyDraft : ProjectDraft.t :=
  ProjectDraft.mk (lit "") (lit "") (lit "") (lit "") [].

Definition initial : State :=
  mkState [] None false None emptyDraft FormErrors.empty.

(** What the environment answers to a handler: the user to the confirmation
    dialog, the remote service to the write request ([true] when the promise
    resolves) and to the [getAll] that reloads the collection ([None] when
    that promise rejects). *)
Record Answers : Type := mkAnswers {
  confirmed : bool;
  write_ok : bool;
  loaded : option (list Project.t)
}.

Section WithURL.

(** [new URL(url)] is the platform's URL parser: [true] when the constructor
    returns, [false] when it throws. *)
Variable URL_parses : jsstring -> bool.

Definition isValidUrl (url : jsstring) : bool :=
  if URL_parses url then true else false.

Definition collect_errors (d : ProjectDraft.t) : FormErrors.t :=
  let errors := FormErrors.empty in
  let errors :=
    if negb (truthy (trim (ProjectDraft.title d))) then
      FormErrors.mk (Some (lit "Başlık zorunludur"))
        (FormErrors.description errors) (FormErrors.image errors)
        (FormErrors.link errors)
    else if length (ProjectDraft.title d) <? 3 then
      FormErrors.mk (Some (lit "Başlık en az 3 karakter olmalıdır"))
        (FormErrors.description errors) (FormErrors.image errors)
        (FormErrors.link errors)
    else errors in
  let errors :=
    if negb (truthy (trim (ProjectDraft.description d))) then
      FormErrors.mk (FormErrors.title errors)
        (Some (lit "Açıklama zorunludur"))
        (FormErrors.image errors) (FormErrors.link errors)
    else if length (ProjectDraft.description d) <? 10 then
      FormErrors.mk (FormErrors.title errors)
        (Some (lit "Açıklama en az 10 karakter olmalıdır"))
        (FormErrors.image errors) (FormErrors.link errors)
    else errors in
  let errors :=
    if truthy (ProjectDraft.image d) && negb (isValidUrl (ProjectDraft.image d))
    then FormErrors.mk (FormErrors.title errors) (FormErrors.description errors)
           (Some (lit "Geçerli bir URL giriniz")) (FormErrors.link errors)
    else errors in
  let errors :=
    if truthy (ProjectDraft.link d) && negb (isValidUrl (ProjectDraft.link d))
    then FormErrors.mk (FormErrors.title errors) (FormErrors.description errors)
           (FormErrors.image errors) (Some (lit "Geçerli bir URL giriniz"))
    else errors in
  errors.

Definition validateForm (st : State) : State * bool :=
  let errors := collect_errors (formData st) in
  (setFormErrors errors st, length (FormErrors.keys errors) =? 0).

Definition resetForm (st : State) : State :=
  setFormData emptyDraft (setEditingProject None st).

Definition loadProjects (answer : option (list Project.t)) (st : State)
  : State * list Effect :=
  let st := setLoading true st in
  let (st, tr) :=
    match answer with
    | Some data => (setProjects data st, [ApiGetAll])
    | None =>
        (setError (Some (lit "Projeler yüklenirken bir hata oluştu")) st,
         [ApiGetAll; ConsoleError])
    end in
  (setLoading false st, tr).

Definition handleSubmit (ans : Answers) (st : State) : State * list Effect :=
  let (st1, valid) := validateForm st in
  if negb valid then (st1, [])
  else
    let st2 := setError None (setLoading true st1) in
    let projectData :=
      ProjectDraft.mk (ProjectDraft.title (formData st))
        (ProjectDraft.description (formData st))
        (ProjectDraft.image (formData st)) (ProjectDraft.link (formData st))
        (ProjectDraft.tags (formData st)) in
    let request :=
      match editingProject st with
      | Some ep => ApiUpdate (Project.id ep) projectData
      | None => ApiCreate projectData
      end in
    if write_ok ans then
      let (st3, tr) := loadProjects (loaded ans) st2 in
      (setLoading false (resetForm st3), request :: tr)
    else
      (setLoading false
         (setError (Some (lit "İşlem sırasında bir hata oluştu")) st2),
       [request; ConsoleError]).

(** [o || d] on an optional field. *)
Definition opt_or (o : option jsstring) (d : jsstring) : jsstring :=
  match o with
  | Some s => or_else s d
  | None => d
  end.

Definition handleEdit (project : Project.t) (st : State) : State :=
  setFormData
    (ProjectDraft.mk (Project.title project) (Project.description project)
       (opt_or (Project.image project) (lit ""))
       (opt_or (Project.link project) (lit ""))
       (Project.tags project))
    (setEditingProject (Some project) st).

Definition confirmDelete : jsstring :=
  lit "Bu projeyi silmek istediğinizden emin misiniz?".

Definition handleDelete (ans : Answers) (id : jsstring) (st : State)
  : State * list Effect :=
  if negb (confirmed ans) then (st, [Confirm confirmDelete])
  else
    let st1 := setError None (setLoading true st) in
    if write_ok ans then
      let (st2, tr) := loadProjects (loaded ans) st1 in
      (setLoading false st2, Confirm confirmDelete :: ApiDelete id :: tr)
    else
      (setLoading false
         (setError (Some (lit "Silme işlemi sırasında bir hata oluştu")) st1),
       [Confirm confirmDelete; ApiDelete id; ConsoleError]).

(** The [onChange] handlers of the five inputs. *)
Definition onTitleChange (value : jsstring) (st : State) : State :=
  let d := formData st in
  let e := formErrors st in
  setFormErrors
    (FormErrors.mk None (FormErrors.description e) (FormErrors.image e)
                   (FormErrors.link e))
    (setFormData
       (ProjectDraft.mk value (ProjectDraft.description d) (ProjectDraft.image d)
                        (ProjectDraft.link d) (ProjectDraft.tags d)) st).

Definition onDescriptionChange (value : jsstring) (st : State) : State :=
  let d := formData st in
  setFormData
    (ProjectDraft.mk (ProjectDraft.title d) value (ProjectDraft.image d)
                     (ProjectDraft.link d) (ProjectDraft.tags d)) st.

Definition onImageChange (value : jsstring) (st : State) : State :=
  let d := formData st in
  setFormData
    (ProjectDraft.mk (ProjectDraft.title d) (ProjectDraft.description d) value
                     (ProjectDraft.link d) (ProjectDraft.tags d)) st.

Definition onLinkChange (value : jsstring) (st : State) : State :=
  let d := formData st in
  setFormData
    (ProjectDraft.mk (ProjectDraft.title d) (ProjectDraft.description d)
                     (ProjectDraft.image d) value (ProjectDraft.tags d)) st.

(** [value.split(',')] *)
Fixpoint split_comma (s : jsstring) (cur : jsstring) : list jsstring :=
  match s with
  | [] => [rev cur]
  | c :: s' =>
      if (c =? 44)%N then rev cur :: split_comma s' []
      else split_comma s' (c :: cur)
  end.

Definition onTagsChange (value : jsstring) (st : State) : State :=
  let d := formData st in
  let tagsArray := filter truthy (map trim (split_comma value [])) in
  setFormData
    (ProjectDraft.mk (ProjectDraft.title d) (ProjectDraft.description d)
                     (ProjectDraft.image d) (ProjectDraft.link d) tagsArray) st.

End WithURL.

End AdminProjects.

(** ** [Image] *)

Module Image.

(** The props of [Image]: the three it names, and of the rest (which it
    spreads on the [img] after its own attributes) the [onError] handler a
    caller may pass, named by a token. *)
Record ImageProps : Type := mkProps {
  src : option jsstring;
  alt : option jsstring;
  fallback : option jsstring;
  onError : option nat
}.

(** The handler on the rendered [img]: the component's own
    [() => setError(true)], or the caller's. *)
Inductive Handler : Type :=
| SetErrorTrue
| Callers (h : nat).

Record Img : Type := mkImg {
  img_src : option jsstring;
  img_alt : option jsstring;
  img_onError : Handler
}.

(** The [useState] cell [error]. *)
Record State : Type := mkState { error : bool }.

Definition setError (v : bool) (_ : State) : State := mkState v.

Definition default_fallback : jsstring := lit "/images/placeholder.png".

(** The [fallback] variable of the component: the prop, or its default. *)
Definition fallback_of (props : ImageProps) : jsstring :=
  match fallback props with Some f => f | None => default_fallback end.

Definition Image (props : ImageProps) (st : State) : Img :=
  mkImg (if error st then Some (fallback_of props) else src props)
        (alt props)
        (match onError props with
         | Some h => Callers h
         | None => SetErrorTrue
         end).

(** A mounted instance: its state cell and the props of its last render. *)
Record Instance : Type := mkInstance {
  state : State;
  props : ImageProps
}.

Definition mount (p : ImageProps) : Instance := mkInstance (mkState false) p.

(** What is on the page. *)
Definition view (i : Instance) : Img := Image (props i) (state i).

Inductive Event : Type :=
| LoadFailure
| Rerender (p : ImageProps).

Definition step (i : Instance) (e : Event) : Instance :=
  match e with
  | LoadFailure =>
      match img_onError (view i) with
      | SetErrorTrue => mkInstance (setError true (state i)) (props i)
      | Callers _ => i
      end
  | Rerender p => mkInstance (state i) p
  end.

Definition run (i : Instance) (es : list Event) : Instance :=
  fold_left step es i.

End Image.

(** ** What the two pages show, and the events of the blog page *)

Module BlogView.
Import AdminBlog.

(** The content cell of a row: [post.content.length > 100 ?
    post.content.substring(0, 100) + '...' : post.content]. *)
Definition contentCell (post : BlogPost.t) : jsstring :=
  if 100 <? length (BlogPost.content post)
  then firstn 100 (BlogPost.content post) ++ lit "..."
  else BlogPost.content post.

(** The label of the submit button and whether the cancel button is there. *)
Definition submitLabel (st : State) : jsstring :=
  match editingPost st with
  | Some _ => lit "Güncelle"
  | None => lit "Ekle"
  end.

Definition cancelShown (st : State) : bool :=
  match editingPost st with Some _ => true | None => false end.

End BlogView.

Module ProjectsView.

(** [tags.join(', ')], the value of the tags input. *)
Fixpoint tagsValue (tags : list jsstring) : jsstring :=
  match tags with
  | [] => []
  | [t] => t
  | t :: rest => t ++ lit ", " ++ tagsValue rest
  end.

(** [tagsArray], the tags that the handler of the input reads in a text. *)
Definition tags_of (value : jsstring) : list jsstring :=
  filter truthy (map trim (AdminProjects.split_comma value [])).

End ProjectsView.

(** The table of [AdminBlog] on the value that the mount effect left in
    [posts]: [posts.map(...)] reaches the items of an array, and is a
    [TypeError] on any other value (no JSON value that is not an array has a
    [map] that can be called). What the rows do with an item that is no
    [BlogPost] is not modelled. *)
Module BlogRender.


End BlogRender.

(** The blog page as a machine: the state of the component and the device
    storage, moved by what the user does. A row's buttons exist for the rows
    of the table only, the cancel button in the Editing state only. *)
Module BlogMachine.
Import AdminBlog.

Inductive Event : Type :=
| TypeTitle (value : jsstring)
| TypeContent (value : jsstring)
| ClickSubmit (clock : Clock)
| ClickEdit (row : nat)
| ClickDelete (row : nat)
| ClickCancel.

Definition step (w : State * Storage) (e : Event) : State * Storage :=
  let (st, sto) := w in
  match e with
  | TypeTitle v => (onTitleChange v st, sto)
  | TypeContent v => (onContentChange v st, sto)
  | ClickSubmit clock =>
      let (st', tr) := handleSubmit clock st in (st', apply_effects tr sto)
  | ClickEdit row =>
      match nth_error (posts st) row with
      | Some post => (handleEdit post st, sto)
      | None => w
      end
  | ClickDelete row =>
      match nth_error (posts st) row with
      | Some post =>
          let (st', tr) := handleDelete (BlogPost.id post) st in
          (st', apply_effects tr sto)
      | None => w
      end
  | ClickCancel =>
      if BlogView.cancelShown st then (resetForm st, sto) else w
  end.

Definition run (w : State * Storage) (es : list Event) : State * Storage :=
  fold_left step es w.

(** Typing in one of the two fields. *)
Definition typing (e : Event) : bool :=
  match e with TypeTitle _ | TypeContent _ => true | _ => false end.

(** The storage holds the collection of the state: a mount on it would start
    from that collection. *)
Definition in_sync (w : State * Storage) : Prop :=
  mountEffect (snd w) initial = Mounted (setPosts (posts (fst w)) initial).

End BlogMachine.

(** ** Sample data

    The concrete records, drafts and states at which the properties below
    are evaluated. *)

Module Samples.

Definition c1_post : BlogPost.t :=
  BlogPost.mk (lit "1700000000000") (lit "Old title")
              (lit "An old content that is long enough to pass the length rule.")
              (lit "2023-11-14T22:13:20.000Z").

Definition c1_other : BlogPost.t :=
  BlogPost.mk (lit "1700000000001") (lit "Other") (lit "other content")
              (lit "2023-11-14T22:13:20.001Z").

Definition c1_draft : BlogDraft.t :=
  BlogDraft.mk (lit "New title")
               (lit "A new content that is long enough to pass the length rule.").

Definition c1_clock : AdminBlog.Clock := AdminBlog.mkClock 1800000000000 (lit "2027-01-15T08:00:00.000Z").

(** A device storage with nothing in it, one with a blob cut short, one with
    a blob as [handleSubmit] writes it. *)
Definition sto_empty : Storage := fun _ => None.


Definition sto_written : Storage :=
  setItem sto_empty (lit "blogPosts") (AdminBlog.stringify [c1_other; c1_post]).

(** A stand-in for the platform's URL parser, for evaluating the project
    form: a text parses when it starts with a scheme (a letter, then letters,
    digits, plus, minus or dot) and a colon. *)
Definition is_alpha (c : N) : bool :=
  ((65 <=? c) && (c <=? 90) || (97 <=? c) && (c <=? 122))%N.

Fixpoint scheme_rest (s : jsstring) : bool :=
  match s with
  | [] => false
  | c :: s' =>
      if (c =? 58)%N then true
      else if is_alpha c || JSON.is_digit c || (c =? 43)%N || (c =? 45)%N
              || (c =? 46)%N
      then scheme_rest s' else false
  end.

Definition has_scheme (s : jsstring) : bool :=
  match s with
  | c :: s' => is_alpha c && scheme_rest s'
  | [] => false
  end.

Definition project_draft (title description : String.string) : ProjectDraft.t :=
  ProjectDraft.mk (lit title) (lit description) (lit "not-a-url")
                  (lit "https://example.com/x") [lit "React"].

Definition answers_ok : AdminProjects.Answers :=
  AdminProjects.mkAnswers true true (Some []).

Definition answers_no : AdminProjects.Answers :=
  AdminProjects.mkAnswers false true (Some []).

(** The project form after a submit that was refused for its description. *)
Definition projects_refused : AdminProjects.State :=
  fst (AdminProjects.handleSubmit has_scheme answers_ok
         (AdminProjects.setFormData (project_draft "A title" "")
                                    AdminProjects.initial)).

Definition a_project : Project.t :=
  Project.mk (lit "p1") (lit "A title") (lit "A description") None None
             (lit "2024-01-01") [].

Definition image_props (onError : option nat) : Image.ImageProps :=
  Image.mkProps (Some (lit "/images/photo.png")) (Some (lit "photo"))
                (Some (lit "/images/other.png")) onError.

End Samples.

(** More of them, for the properties of the code around the claims. *)

Module MoreSamples.
Import Samples.

Definition blog_creating : AdminBlog.State :=
  AdminBlog.mkState [c1_other; c1_post] None c1_draft AdminBlog.FormErrors.empty.

Definition blog_editing : AdminBlog.State :=
  AdminBlog.mkState [c1_other; c1_post] (Some c1_post) c1_draft
                    AdminBlog.FormErrors.empty.

Definition later_clock : AdminBlog.Clock :=
  AdminBlog.mkClock 1800000000001 (lit "2027-01-15T08:00:00.001Z").

Definition a_session : list BlogMachine.Event :=
  [BlogMachine.TypeTitle (BlogDraft.title c1_draft);
   BlogMachine.TypeContent (BlogDraft.content c1_draft);
   BlogMachine.ClickSubmit c1_clock;
   BlogMachine.ClickEdit 0;
   BlogMachine.TypeTitle (lit "ab");
   BlogMachine.ClickSubmit later_clock;
   BlogMachine.ClickDelete 1;
   BlogMachine.ClickCancel].

Definition good_draft : ProjectDraft.t :=
  ProjectDraft.mk (lit "A title") (lit "A description") (lit "")
                  (lit "https://example.com/x") [lit "React"; lit "TypeScript"].

Definition projects_creating : AdminProjects.State :=
  AdminProjects.setFormData good_draft AdminProjects.initial.

Definition projects_editing : AdminProjects.State :=
  AdminProjects.setEditingProject (Some a_project) projects_creating.

Definition answers_refused : AdminProjects.Answers :=
  AdminProjects.mkAnswers true false None.

Definition answers_no_reload : AdminProjects.Answers :=
  AdminProjects.mkAnswers true true None.

End MoreSamples.

(** * Properties *)

(** ** Strings *)

Lemma str_eqb_eq (a b : jsstring) : str_eqb a b = true <-> a = b.
Proof.
  revert b; induction a as [|x a IH]; intros [|y b]; simpl;
    try (split; [discriminate | discriminate]); try tauto.
  rewrite andb_true_iff, N.eqb_eq, IH.
  split; [intros [-> ->]; reflexivity | intros H; inversion H; auto].
Qed.

Lemma str_eqb_refl (a : jsstring) : str_eqb a a = true.
Proof. apply str_eqb_eq; reflexivity. Qed.

Lemma str_eqb_neq (a b : jsstring) : str_eqb a b = false <-> a <> b.
Proof.
  rewrite <- str_eqb_eq. destruct (str_eqb a b); split; congruence.
Qed.

Lemma truthy_nonempty (s : jsstring) : truthy s = true <-> s <> [].
Proof. destruct s; simpl; split; congruence. Qed.

Lemma utf16_of_utf8_nonempty (b : N) (bs : list N) :
  utf16_of_utf8 (b :: bs) <> [].
Proof.
  cbn [utf16_of_utf8].
  destruct (b <? 128)%N; [discriminate|].
  destruct (b <? 224)%N; [destruct bs; discriminate|].
  destruct (b <? 240)%N; [destruct bs as [|? [|? ?]]; discriminate|].
  destruct bs as [|? [|? [|? ?]]]; discriminate.
Qed.

Lemma lit_nonempty (c : Ascii.ascii) (s : String.string) :
  lit (String.String c s) <> [].
Proof. unfold lit. cbn [String.list_ascii_of_string map]. apply utf16_of_utf8_nonempty. Qed.

(** The decimal text of a number is not the empty string. *)
Lemma toString_nonempty (n : Z) : toString n <> [].
Proof.
  unfold toString, DecimalString.NilZero.string_of_int.
  destruct (Z.to_int n) as [d|d]; [|apply lit_nonempty].
  unfold DecimalString.NilZero.string_of_uint.
  destruct d; apply lit_nonempty.
Qed.

Example lit_utf8 : lit "Başlık" = [66; 97; 351; 108; 305; 107]%N.
Proof. reflexivity. Qed.

Example trim_ex : trim (lit " a  ") = lit "a".
Proof. reflexivity. Qed.

Example toString_ex : toString 1700000000000 = lit "1700000000000"
                      /\ toString (-5) = lit "-5" /\ toString 0 = lit "0".
Proof. repeat split; reflexivity. Qed.

(** ** JSON *)

Example parse_ex1 :
  JSON.parse (lit_q "[{'k': 'aA\n', 'n': [-1.5e3, true, null]}] ")
  = Some (JSON.JArray [JSON.JObject
        [(lit "k", JSON.JString [97; 65; 10]%N);
         (lit "n", JSON.JArray [JSON.JNumber (lit "-1.5e3"); JSON.JBool true;
                               JSON.JNull])]]).
Proof. vm_compute. reflexivity. Qed.

Example stringify_parse_ex :
  let ps := [BlogPost.mk (lit "17") (lit_q "a 'b'") [92; 10; 55357; 56832; 56832]%N
                         (lit "2024-01-01T00:00:00.000Z")] in
  option_map AdminBlog.as_posts (JSON.parse (AdminBlog.stringify ps))
  = Some (Some ps).
Proof. vm_compute. reflexivity. Qed.

(** *** The parser consumes its input and never runs out of fuel

    The two facts that make [JSON.parse] a total function whose [None] is a
    syntax error and nothing else. *)

Module JSONFacts.
Import JSON.

Ltac break_match :=
  match goal with
  | H : context [match ?x with _ => _ end] |- _ => destruct x eqn:?
  | |- context [match ?x with _ => _ end] => destruct x eqn:?
  end.

Lemma skip_ws_length (s : jsstring) : length (skip_ws s) <= length s.
Proof.
  induction s as [|c s IH]; simpl; [lia|].
  destruct (is_ws c); simpl; lia.
Qed.

Lemma skip_ws_cons (s r : jsstring) (c : N) :
  skip_ws s = c :: r -> S (length r) <= length s.
Proof.
  intros H. pose proof (skip_ws_length s) as L. rewrite H in L. exact L.
Qed.

Lemma parse_chars_length (n : nat) :
  forall s acc a r, length s <= n ->
    parse_chars s acc = Ok a r -> S (length r) <= length s.
Proof.
  induction n as [|n IH]; intros s acc a r Hn H.
  - destruct s; simpl in *; [discriminate | lia].
  - destruct s as [|c s]; simpl in H; [discriminate|].
    destruct (c =? 34)%N.
    { inversion H; subst; simpl; lia. }
    destruct (c =? 92)%N.
    { destruct s as [|e s1]; [discriminate|].
      destruct (e =? 117)%N.
      - destruct s1 as [|x1 [|x2 [|x3 [|x4 s2]]]]; try discriminate.
        destruct (hex4 x1 x2 x3 x4); [|discriminate].
        apply IH in H; simpl in *; lia.
      - destruct (unescape e); [|discriminate].
        apply IH in H; simpl in *; lia. }
    destruct (c <? 32)%N; [discriminate|].
    apply IH in H; simpl in *; lia.
Qed.

Lemma span_digits_length (s : jsstring) :
  length (snd (span_digits s)) <= length s
  /\ length (fst (span_digits s)) + length (snd (span_digits s)) = length s.
Proof.
  induction s as [|c s IH]; simpl; [lia|].
  destruct (is_digit c); simpl; [|lia].
  destruct (span_digits s); simpl in *; lia.
Qed.

Lemma parse_number_length (s l r : jsstring) :
  parse_number s = Ok l r -> length r <= length s.
Proof.
  unfold parse_number, parse_int, parse_frac, parse_exp, bind.
  intros H.
  repeat (break_match; try discriminate; subst);
    repeat match goal with
           | E : (_, _) = (_, _) |- _ => inversion E; subst; clear E
           | E : Ok _ _ = Ok _ _ |- _ => inversion E; subst; clear E
           | E : span_digits ?x = _ |- _ =>
               pose proof (span_digits_length x) as ?L; rewrite E in *; clear E
           end;
    simpl in *; lia.
Qed.

Lemma strip_prefix_length (p s r : jsstring) :
  strip_prefix p s = Some r -> length r <= length s.
Proof.
  revert s; induction p as [|x p IH]; intros [|y s] H; simpl in H;
    try discriminate; try (inversion H; subst; simpl; lia).
  destruct (x =? y)%N; [|discriminate]. apply IH in H. simpl; lia.
Qed.

Lemma parse_word_length w v (s : jsstring) v' r :
  parse_word w v s = Ok v' r -> length r <= length s.
Proof.
  unfold parse_word. destruct (strip_prefix (lit w) s) eqn:E; [|discriminate].
  intros H; inversion H; subst. eapply strip_prefix_length; eauto.
Qed.

Lemma parse_length (n : nat) :
  (forall s v r, parse_value n s = Ok v r -> length r <= length s)
  /\ (forall s acc v r, parse_elements n s acc = Ok v r -> length r <= length s)
  /\ (forall s acc v r, parse_members n s acc = Ok v r -> length r <= length s).
Proof.
  induction n as [|n (IV & IE & IM)].
  { repeat split; intros; discriminate. }
  repeat split.
  - intros s v r H. simpl in H.
    destruct (skip_ws s) as [|c t] eqn:Es; [discriminate|].
    apply skip_ws_cons in Es.
    destruct (c =? 34)%N.
    { unfold bind in H. destruct (parse_chars t []) eqn:E; try discriminate.
      inversion H; subst.
      apply (parse_chars_length (n := length t)) in E; lia. }
    destruct (c =? 91)%N.
    { destruct (skip_ws t) as [|c1 t1] eqn:Et; [discriminate|].
      apply skip_ws_cons in Et.
      destruct (c1 =? 93)%N; [inversion H; subst; lia|].
      apply IE in H. lia. }
    destruct (c =? 123)%N.
    { destruct (skip_ws t) as [|c1 t1] eqn:Et; [discriminate|].
      apply skip_ws_cons in Et.
      destruct (c1 =? 125)%N; [inversion H; subst; lia|].
      apply IM in H. lia. }
    destruct (c =? 116)%N; [apply parse_word_length in H; simpl in *; lia|].
    destruct (c =? 102)%N; [apply parse_word_length in H; simpl in *; lia|].
    destruct (c =? 110)%N; [apply parse_word_length in H; simpl in *; lia|].
    unfold bind in H. destruct (parse_number (c :: t)) eqn:E; try discriminate.
    inversion H; subst. apply parse_number_length in E. simpl in *; lia.
  - intros s acc v r H. simpl in H. unfold bind in H.
    destruct (parse_value n s) as [v0 r0| |] eqn:E; try discriminate.
    apply IV in E.
    destruct (skip_ws r0) as [|c t] eqn:Es; [discriminate|].
    apply skip_ws_cons in Es.
    destruct (c =? 44)%N; [apply IE in H; lia|].
    destruct (c =? 93)%N; [inversion H; subst; lia | discriminate].
  - intros s acc v r H. simpl in H.
    destruct (skip_ws s) as [|c t] eqn:Es; [discriminate|].
    apply skip_ws_cons in Es.
    destruct (c =? 34)%N; [|discriminate].
    unfold bind in H.
    destruct (parse_chars t []) as [k r1| |] eqn:E; try discriminate.
    apply (parse_chars_length (n := length t)) in E; [|lia].
    destruct (skip_ws r1) as [|c1 r2] eqn:E1; [discriminate|].
    apply skip_ws_cons in E1.
    destruct (c1 =? 58)%N; [|discriminate].
    destruct (parse_value n r2) as [v0 r3| |] eqn:E2; try discriminate.
    apply IV in E2.
    destruct (skip_ws r3) as [|c2 r4] eqn:E3; [discriminate|].
    apply skip_ws_cons in E3.
    destruct (c2 =? 44)%N; [apply IM in H; lia|].
    destruct (c2 =? 125)%N; [inversion H; subst; lia | discriminate].
Qed.

Lemma parse_chars_fuel (s acc : jsstring) : parse_chars s acc <> OutOfFuel.
Proof.
  remember (length s) as n eqn:Hn.
  assert (Hle : length s <= n) by lia. clear Hn.
  revert s acc Hle; induction n as [|n IH]; intros s acc Hle.
  - destruct s; simpl in *; [discriminate | lia].
  - destruct s as [|c s]; simpl; [discriminate|].
    destruct (c =? 34)%N; [discriminate|].
    destruct (c =? 92)%N.
    { destruct s as [|e s1]; [discriminate|].
      destruct (e =? 117)%N.
      - destruct s1 as [|x1 [|x2 [|x3 [|x4 s2]]]]; try discriminate.
        destruct (hex4 x1 x2 x3 x4); [|discriminate].
        apply IH; simpl in *; lia.
      - destruct (unescape e); [|discriminate].
        apply IH; simpl in *; lia. }
    destruct (c <? 32)%N; [discriminate|].
    apply IH; simpl in *; lia.
Qed.

Lemma parse_number_fuel (s : jsstring) : parse_number s <> OutOfFuel.
Proof.
  unfold parse_number, parse_int, parse_frac, parse_exp, bind.
  repeat (break_match; try discriminate; subst).
Qed.

Lemma parse_word_fuel w v (s : jsstring) : parse_word w v s <> OutOfFuel.
Proof. unfold parse_word. destruct (strip_prefix (lit w) s); discriminate. Qed.

Lemma parse_fuel (n : nat) :
  (forall s, 2 * length s + 1 <= n -> parse_value n s <> OutOfFuel)
  /\ (forall s acc, 2 * length s + 2 <= n -> parse_elements n s acc <> OutOfFuel)
  /\ (forall s acc, 2 * length s + 2 <= n -> parse_members n s acc <> OutOfFuel).
Proof.
  induction n as [|n (IV & IE & IM)].
  { repeat split; intros; lia. }
  repeat split.
  - intros s Hn. simpl.
    destruct (skip_ws s) as [|c t] eqn:Es; [discriminate|].
    apply skip_ws_cons in Es.
    destruct (c =? 34)%N.
    { unfold bind. pose proof (parse_chars_fuel t []).
      destruct (parse_chars t []); congruence. }
    destruct (c =? 91)%N.
    { destruct (skip_ws t) as [|c1 t1] eqn:Et; [discriminate|].
      destruct (c1 =? 93)%N; [discriminate|].
      apply IE. lia. }
    destruct (c =? 123)%N.
    { destruct (skip_ws t) as [|c1 t1] eqn:Et; [discriminate|].
      destruct (c1 =? 125)%N; [discriminate|].
      apply IM. lia. }
    destruct (c =? 116)%N; [apply parse_word_fuel|].
    destruct (c =? 102)%N; [apply parse_word_fuel|].
    destruct (c =? 110)%N; [apply parse_word_fuel|].
    unfold bind. pose proof (parse_number_fuel (c :: t)).
    destruct (parse_number (c :: t)); congruence.
  - intros s acc Hn. simpl. unfold bind.
    pose proof (IV s ltac:(lia)) as HV.
    destruct (parse_value n s) as [v0 r0| |] eqn:E; try congruence.
    apply (proj1 (parse_length n)) in E.
    destruct (skip_ws r0) as [|c t] eqn:Es; [discriminate|].
    apply skip_ws_cons in Es.
    destruct (c =? 44)%N; [apply IE; lia|].
    destruct (c =? 93)%N; discriminate.
  - intros s acc Hn. simpl.
    destruct (skip_ws s) as [|c t] eqn:Es; [discriminate|].
    apply skip_ws_cons in Es.
    destruct (c =? 34)%N; [|discriminate].
    unfold bind. pose proof (parse_chars_fuel t []) as HC.
    destruct (parse_chars t []) as [k r1| |] eqn:E; try congruence.
    apply (parse_chars_length (n := length t)) in E; [|lia].
    destruct (skip_ws r1) as [|c1 r2] eqn:E1; [discriminate|].
    apply skip_ws_cons in E1.
    destruct (c1 =? 58)%N; [|discriminate].
    pose proof (IV r2 ltac:(lia)) as HV.
    destruct (parse_value n r2) as [v0 r3| |] eqn:E2; try congruence.
    apply (proj1 (parse_length n)) in E2.
    destruct (skip_ws r3) as [|c2 r4] eqn:E3; [discriminate|].
    apply skip_ws_cons in E3.
    destruct (c2 =? 44)%N; [apply IM; lia|].
    destruct (c2 =? 125)%N; discriminate.
Qed.

(** [JSON.parse] runs with enough fuel: when it yields no value, the text has
    a syntax error, in its value or after it. *)
Lemma parse_enough_fuel (text : jsstring) :
  parse_value (fuel_for text) text <> OutOfFuel.
Proof. apply (proj1 (parse_fuel (fuel_for text))). unfold fuel_for. lia. Qed.

Lemma parse_None_syntax (text : jsstring) :
  parse text = None ->
  parse_value (fuel_for text) text = SyntaxError
  \/ exists v r, parse_value (fuel_for text) text = Ok v r /\ skip_ws r <> [].
Proof.
  unfold parse. pose proof (parse_enough_fuel text) as F.
  destruct (parse_value (fuel_for text) text) as [v r| |]; try congruence.
  - destruct (skip_ws r) eqn:E; [discriminate|].
    intros _. right. exists v, r. split; congruence.
  - intros _. left. reflexivity.
Qed.

End JSONFacts.

(** *** Writing and reading back

    A collection written with [JSON.stringify] is read back by [JSON.parse]
    as the same collection, so the blob a handler leaves in the device
    storage is the collection the next mount starts from. *)

Module Persistence.
Import JSON AdminBlog.

Ltac Zify.zify_post_hook ::= Z.to_euclidean_division_equations.

Lemma hex_value_digit (d : N) : (d < 16)%N -> hex_value (hex_digit d) = Some d.
Proof.
  intros H.
  assert (d = 0 \/ d = 1 \/ d = 2 \/ d = 3 \/ d = 4 \/ d = 5 \/ d = 6 \/ d = 7
          \/ d = 8 \/ d = 9 \/ d = 10 \/ d = 11 \/ d = 12 \/ d = 13 \/ d = 14
          \/ d = 15)%N as E by lia.
  repeat (destruct E as [-> | E]; [reflexivity|]). subst; reflexivity.
Qed.

Lemma hex4_unicode_escape (c : N) :
  (c < 65536)%N ->
  hex4 (hex_digit (c / 4096)) (hex_digit ((c / 256) mod 16))
       (hex_digit ((c / 16) mod 16)) (hex_digit (c mod 16)) = Some c.
Proof.
  intros H. unfold hex4.
  rewrite !hex_value_digit by lia. f_equal. lia.
Qed.

Lemma parse_chars_escape_aux (n : nat) :
  forall s rest acc, length s <= n ->
    parse_chars (escape s ++ 34%N :: rest) acc = Ok (rev acc ++ s) rest.
Proof.
  induction n as [|n IH]; intros s rest acc Hn.
  { destruct s; [|simpl in Hn; lia]. simpl. rewrite app_nil_r. reflexivity. }
  destruct s as [|c r]; [simpl; rewrite app_nil_r; reflexivity|].
  simpl in Hn.
  assert (IHr : forall acc', parse_chars (escape r ++ 34%N :: rest) acc'
                             = Ok (rev acc' ++ r) rest) by (intros; apply IH; lia).
  assert (Hsnoc : forall x, rev (x :: acc) ++ r = rev acc ++ x :: r).
  { intros x. simpl. rewrite <- app_assoc. reflexivity. }
  cbn [escape].
  destruct (c =? 34)%N eqn:E34.
  { apply N.eqb_eq in E34; subst c. cbn. rewrite IHr. f_equal. apply Hsnoc. }
  destruct (c =? 92)%N eqn:E92.
  { apply N.eqb_eq in E92; subst c. cbn. rewrite IHr. f_equal. apply Hsnoc. }
  destruct (c =? 8)%N eqn:E8.
  { apply N.eqb_eq in E8; subst c. cbn. rewrite IHr. f_equal. apply Hsnoc. }
  destruct (c =? 12)%N eqn:E12.
  { apply N.eqb_eq in E12; subst c. cbn. rewrite IHr. f_equal. apply Hsnoc. }
  destruct (c =? 10)%N eqn:E10.
  { apply N.eqb_eq in E10; subst c. cbn. rewrite IHr. f_equal. apply Hsnoc. }
  destruct (c =? 13)%N eqn:E13.
  { apply N.eqb_eq in E13; subst c. cbn. rewrite IHr. f_equal. apply Hsnoc. }
  destruct (c =? 9)%N eqn:E9.
  { apply N.eqb_eq in E9; subst c. cbn. rewrite IHr. f_equal. apply Hsnoc. }
  assert (Hu : (c < 65536)%N ->
               parse_chars ((unicode_escape c ++ escape r) ++ 34%N :: rest) acc
               = Ok (rev acc ++ c :: r) rest).
  { intros Hc. unfold unicode_escape. cbn [app parse_chars].
    change (92 =? 34)%N with false. change (92 =? 92)%N with true.
    change (117 =? 117)%N with true. cbv iota.
    rewrite (@hex4_unicode_escape c Hc), IHr. f_equal. apply Hsnoc. }
  destruct (c <? 32)%N eqn:E32.
  { apply Hu. apply N.ltb_lt in E32. lia. }
  assert (Hplain : forall t acc', parse_chars (c :: t) acc' = parse_chars t (c :: acc')).
  { intros t acc'. cbn [parse_chars]. rewrite E34, E92, E32. reflexivity. }
  destruct (is_high_surrogate c) eqn:Eh.
  { unfold is_high_surrogate in Eh. apply andb_true_iff in Eh.
    destruct Eh as [Eh1 Eh2]. apply N.leb_le in Eh1, Eh2.
    destruct r as [|d r'].
    - rewrite <- (app_nil_r (unicode_escape c)). apply Hu. lia.
    - destruct (is_low_surrogate d) eqn:El; [|apply Hu; lia].
      unfold is_low_surrogate in El. apply andb_true_iff in El.
      destruct El as [El1 El2]. apply N.leb_le in El1, El2.
      cbn [app]. rewrite Hplain. cbn [parse_chars].
      replace (d =? 34)%N with false by (symmetry; apply N.eqb_neq; lia).
      replace (d =? 92)%N with false by (symmetry; apply N.eqb_neq; lia).
      replace (d <? 32)%N with false by (symmetry; apply N.ltb_ge; lia).
      rewrite IH by (simpl in Hn; lia).
      f_equal. simpl. rewrite <- !app_assoc. reflexivity. }
  destruct (is_low_surrogate c) eqn:El.
  { apply Hu. unfold is_low_surrogate in El. apply andb_true_iff in El.
    destruct El as [_ El2]. apply N.leb_le in El2. lia. }
  cbn [app]. rewrite Hplain, IHr. f_equal. apply Hsnoc.
Qed.

Lemma parse_chars_quote (s rest : jsstring) :
  parse_chars (escape s ++ 34%N :: rest) [] = Ok s rest.
Proof. apply (@parse_chars_escape_aux (length s) s rest []). lia. Qed.

Lemma as_post_json_of_post (p : BlogPost.t) : as_post (json_of_post p) = Some p.
Proof. destruct p; reflexivity. Qed.

Lemma as_all_json_of_posts (ps : list BlogPost.t) :
  as_all (map json_of_post ps) = Some ps.
Proof.
  induction ps as [|p ps IH]; [reflexivity|].
  cbn [map as_all]. rewrite as_post_json_of_post, IH. reflexivity.
Qed.

Lemma parse_value_quote (n : nat) (s rest : jsstring) :
  parse_value (S n) (quote s ++ rest) = Ok (JString s) rest.
Proof.
  unfold quote. cbn [app parse_value skip_ws is_ws].
  change (is_ws 34) with false. cbv iota.
  change (34 =? 34)%N with true. cbv iota.
  rewrite <- app_assoc. cbn [app].
  rewrite parse_chars_quote. reflexivity.
Qed.

Lemma skip_ws_nonws (c : N) (s : jsstring) :
  is_ws c = false -> skip_ws (c :: s) = c :: s.
Proof. intros H. cbn [skip_ws]. rewrite H. reflexivity. Qed.

(** One member of an object whose value is a string. *)
Lemma parse_members_step (m : nat) (k v tail : jsstring)
                         (acc : list (jsstring * json)) :
  parse_members (S (S m)) (quote k ++ 58%N :: quote v ++ tail) acc
  = match skip_ws tail with
    | c2 :: r4 =>
        if (c2 =? 44)%N then parse_members (S m) r4 ((k, JString v) :: acc)
        else if (c2 =? 125)%N then Ok (JObject (rev ((k, JString v) :: acc))) r4
        else SyntaxError
    | [] => SyntaxError
    end.
Proof.
  unfold quote at 1. cbn [parse_members app].
  rewrite skip_ws_nonws by reflexivity.
  change (34 =? 34)%N with true. cbv iota.
  rewrite <- app_assoc. cbn [app].
  rewrite parse_chars_quote. cbn [bind].
  rewrite skip_ws_nonws by reflexivity.
  change (58 =? 58)%N with true. cbv iota.
  rewrite parse_value_quote. cbn [bind]. reflexivity.
Qed.

Lemma stringify_post_eq (p : BlogPost.t) (rest : jsstring) :
  stringify_post p ++ rest
  = 123%N :: quote (lit "id") ++ 58%N :: quote (BlogPost.id p)
    ++ 44%N :: quote (lit "title") ++ 58%N :: quote (BlogPost.title p)
    ++ 44%N :: quote (lit "content") ++ 58%N :: quote (BlogPost.content p)
    ++ 44%N :: quote (lit "date") ++ 58%N :: quote (BlogPost.date p)
    ++ 125%N :: rest.
Proof.
  unfold stringify_post.
  change (lit "{") with [123%N]. change (lit ",") with [44%N].
  change (lit ":") with [58%N]. change (lit "}") with [125%N].
  repeat rewrite <- app_assoc. reflexivity.
Qed.

Lemma parse_value_post (n : nat) (p : BlogPost.t) (rest : jsstring) :
  parse_value (6 + n) (stringify_post p ++ rest) = Ok (json_of_post p) rest.
Proof.
  rewrite stringify_post_eq.
  change (6 + n) with (S (S (S (S (S (S n)))))).
  cbn [parse_value].
  rewrite skip_ws_nonws by reflexivity.
  change (123 =? 34)%N with false. change (123 =? 91)%N with false.
  change (123 =? 123)%N with true. cbv iota.
  unfold quote at 1. cbn [app]. rewrite skip_ws_nonws by reflexivity.
  change (34 =? 125)%N with false. cbv iota.
  change (34%N :: (escape (lit "id") ++ [34%N]) ++ ?x) with (quote (lit "id") ++ x).
  repeat (rewrite parse_members_step; rewrite skip_ws_nonws by reflexivity;
          cbn [N.eqb Pos.eqb]; cbv iota).
  reflexivity.
Qed.

Lemma join_comma_cons (x y : jsstring) (xs : list jsstring) :
  join_comma (x :: y :: xs) = x ++ 44%N :: join_comma (y :: xs).
Proof. reflexivity. Qed.

Lemma parse_elements_posts (ps : list BlogPost.t) :
  forall p n rest acc,
    parse_elements (length (p :: ps) + 6 + n)
      (join_comma (map stringify_post (p :: ps)) ++ 93%N :: rest) acc
    = Ok (JArray (rev acc ++ map json_of_post (p :: ps))) rest.
Proof.
  induction ps as [|q ps IH]; intros p n rest acc.
  - cbn [map join_comma length Nat.add parse_elements].
    rewrite (parse_value_post n). cbn [bind].
    rewrite skip_ws_nonws by reflexivity. reflexivity.
  - cbn [map]. rewrite join_comma_cons, <- app_assoc.
    change (length (p :: q :: ps) + 6 + n)
      with (S (length (q :: ps) + 6 + n)).
    cbn [parse_elements].
    replace (length (q :: ps) + 6 + n) with (6 + (length (q :: ps) + n)) at 1 by lia.
    rewrite parse_value_post. cbn [bind app].
    rewrite skip_ws_nonws by reflexivity.
    change (44 =? 44)%N with true. cbv iota.
    change (join_comma (stringify_post q :: map stringify_post ps))
      with (join_comma (map stringify_post (q :: ps))).
    rewrite IH. f_equal. cbn [rev map]. rewrite <- app_assoc. reflexivity.
Qed.

Lemma stringify_post_length (p : BlogPost.t) : 2 <= length (stringify_post p).
Proof.
  pose proof (stringify_post_eq p []) as E. rewrite app_nil_r in E.
  rewrite E. cbn [length]. rewrite length_app. cbn [length].
  lia.
Qed.

Lemma join_comma_length (ps : list BlogPost.t) :
  2 * length ps <= length (join_comma (map stringify_post ps)).
Proof.
  induction ps as [|p [|q ps] IH].
  - simpl; lia.
  - pose proof (stringify_post_length p). simpl join_comma. simpl length at 1. lia.
  - cbn [map] in *. rewrite join_comma_cons, length_app.
    pose proof (stringify_post_length p). cbn [length] in *. lia.
Qed.

(** What [JSON.stringify] wrote, [JSON.parse] reads back. *)
Lemma parse_stringify (ps : list BlogPost.t) :
  parse (stringify ps) = Some (JArray (map json_of_post ps)).
Proof.
  unfold parse, fuel_for, stringify.
  change (lit "[") with [91%N]. change (lit "]") with [93%N].
  cbn [app]. rewrite Nat.add_1_r. cbn [parse_value].
  rewrite skip_ws_nonws by reflexivity.
  change (91 =? 34)%N with false. change (91 =? 91)%N with true. cbv iota.
  destruct ps as [|p ps].
  - reflexivity.
  - pose proof (join_comma_length (p :: ps)) as L.
    set (body := join_comma (map stringify_post (p :: ps))) in *.
    assert (Hb : exists t, body = 123%N :: t).
    { unfold body. cbn [map]. destruct (map stringify_post ps).
      - cbn [join_comma]. rewrite <- (app_nil_r (stringify_post p)).
        rewrite stringify_post_eq. eexists. reflexivity.
      - rewrite join_comma_cons, stringify_post_eq. eexists. reflexivity. }
    destruct Hb as [t Ht].
    assert (Hsk : skip_ws (body ++ [93%N]) = 123%N :: t ++ [93%N])
      by (rewrite Ht; reflexivity).
    rewrite Hsk. change (123 =? 93)%N with false. cbv iota.
    set (F := 2 * length (91%N :: body ++ [93%N])).
    assert (HF : F = length (p :: ps) + 6 + (F - length (p :: ps) - 6)).
    { unfold F. cbn [length] in *. rewrite length_app. cbn [length]. lia. }
    rewrite HF. unfold body. rewrite parse_elements_posts. reflexivity.
Qed.

Lemma mount_after_write (ps : list BlogPost.t) (sto : Storage) (st : State) :
  mountEffect (setItem sto (lit "blogPosts") (stringify ps)) st
  = Mounted (setPosts ps st).
Proof.
  unfold mountEffect, getItem, setItem. rewrite str_eqb_refl.
  assert (T : truthy (stringify ps) = true) by reflexivity.
  rewrite T, parse_stringify. cbn [as_posts].
  rewrite as_all_json_of_posts. reflexivity.
Qed.

End Persistence.

(** ** The blog store: delete *)

Section BlogDelete.
Import AdminBlog.

Lemma filter_id_of_absent (id : jsstring) (ps : list BlogPost.t) :
  (forall p, In p ps -> BlogPost.id p <> id) ->
  filter (fun p => negb (str_eqb (BlogPost.id p) id)) ps = ps.
Proof.
  induction ps as [|q ps IH]; intros H; simpl; [reflexivity|].
  assert (E : str_eqb (BlogPost.id q) id = false).
  { apply str_eqb_neq, H; left; reflexivity. }
  rewrite E; simpl. f_equal. apply IH. intros p Hp; apply H; right; exact Hp.
Qed.

Lemma filter_id_removes (id : jsstring) (ps : list BlogPost.t) (p : BlogPost.t) :
  In p (filter (fun p => negb (str_eqb (BlogPost.id p) id)) ps) ->
  In p ps /\ BlogPost.id p <> id.
Proof.
  rewrite filter_In. intros [Hin Hb]. split; [exact Hin|].
  apply str_eqb_neq. destruct (str_eqb (BlogPost.id p) id); [discriminate|reflexivity].
Qed.

(** C8. After [handleDelete id] the collection holds no record with that id;
    the records kept are those of the collection before; when no record had
    the id the collection is the same list as before; deleting once more
    changes nothing, neither the state nor what is written to the device
    storage; and the read at the next mount gives that collection. The
    handler is a total function: it signals no error. *)
Theorem C8_delete_removes_and_is_idempotent (id : jsstring) (st : State) :
  let st' := fst (handleDelete id st) in
  (forall p, In p (posts st') -> In p (posts st) /\ BlogPost.id p <> id)
  /\ ((forall p, In p (posts st) -> BlogPost.id p <> id) -> posts st' = posts st)
  /\ handleDelete id st' = (st', snd (handleDelete id st))
  /\ (forall sto, getItem (apply_effects (snd (handleDelete id st)) sto)
                          (lit "blogPosts") = Some (stringify (posts st')))
  /\ (forall sto, mountEffect (apply_effects (snd (handleDelete id st)) sto) initial
                  = Mounted (setPosts (posts st') initial)).
Proof.
  simpl. split; [|split; [|split; [|split]]].
  - intros p Hp. apply (filter_id_removes _ _ _ Hp).
  - apply filter_id_of_absent.
  - unfold handleDelete; simpl.
    rewrite filter_id_of_absent; [reflexivity|].
    intros p Hp. apply (filter_id_removes _ _ _ Hp).
  - intros sto. unfold apply_effects, getItem; simpl. unfold setItem.
    rewrite str_eqb_refl. reflexivity.
  - intros sto. unfold apply_effects; simpl.
    apply Persistence.mount_after_write.
Qed.

(** The theorem at a collection of two records and an id that none has. *)
Lemma C8_witness :
  let p1 := BlogPost.mk (lit "1") (lit "one") (lit "first") (lit "d1") in
  let p2 := BlogPost.mk (lit "2") (lit "two") (lit "second") (lit "d2") in
  posts (fst (handleDelete (lit "3") (setPosts [p1; p2] initial))) = [p1; p2].
Proof.
  intros p1 p2.
  apply (C8_delete_removes_and_is_idempotent (lit "3") (setPosts [p1; p2] initial)).
  intros p [<- | [<- | []]]; vm_compute; discriminate.
Defined.

End BlogDelete.

(** ** The blog form: submit *)

Section BlogSubmit.
Import AdminBlog Samples.

Lemma unique_id (ps : list BlogPost.t) (p q : BlogPost.t) :
  NoDup (map BlogPost.id ps) -> In p ps -> In q ps ->
  BlogPost.id p = BlogPost.id q -> p = q.
Proof.
  induction ps as [|r ps IH]; simpl; intros ND Hp Hq E; [contradiction|].
  inversion ND as [|? ? Hnot ND']; subst.
  destruct Hp as [-> | Hp], Hq as [-> | Hq]; auto.
  - exfalso. apply Hnot. rewrite E. apply in_map, Hq.
  - exfalso. apply Hnot. rewrite <- E. apply in_map, Hp.
Qed.

Lemma or_else_truthy (a b : jsstring) : a <> [] -> or_else a b = a.
Proof. destruct a; [congruence | reflexivity]. Qed.

(** A submit that passes validation, seen as one step. *)
Lemma handleSubmit_valid (clock : Clock) (st : State) :
  snd (validateForm st) = true ->
  handleSubmit clock st =
  let newPost :=
    BlogPost.mk (field_or BlogPost.id (editingPost st) (toString (now clock)))
                (BlogDraft.title (formData st)) (BlogDraft.content (formData st))
                (field_or BlogPost.date (editingPost st) (toISOString clock)) in
  let updatedPosts :=
    match editingPost st with
    | Some ep => map (fun p => if str_eqb (BlogPost.id p) (BlogPost.id ep)
                               then newPost else p) (posts st)
    | None => posts st ++ [newPost]
    end in
  (mkState updatedPosts None (BlogDraft.mk [] []) (collect_errors (formData st)),
   [LocalStorageSet (lit "blogPosts") (stringify updatedPosts)]).
Proof.
  unfold handleSubmit, validateForm; simpl. intros ->. reflexivity.
Qed.

(** A submit that fails validation, seen as one step. *)
Lemma handleSubmit_invalid (clock : Clock) (st : State) :
  snd (validateForm st) = false ->
  handleSubmit clock st = (setFormErrors (collect_errors (formData st)) st, []).
Proof.
  unfold handleSubmit, validateForm; simpl. intros ->. reflexivity.
Qed.

(** The ids and dates that the form writes are never empty (the id is the
    decimal text of a time, or the id of the record edited when that is not
    empty), so a collection whose records have an id and a date keeps that
    through every submit, the clock's ISO text being non-empty. *)
Lemma submit_keeps_ids_and_dates (clock : Clock) (st : State) :
  toISOString clock <> [] ->
  (forall p, In p (posts st) -> BlogPost.id p <> [] /\ BlogPost.date p <> []) ->
  forall p, In p (posts (fst (handleSubmit clock st))) ->
            BlogPost.id p <> [] /\ BlogPost.date p <> [].
Proof.
  intros Hiso Hall p.
  assert (Hnew : forall ed,
            field_or BlogPost.id ed (toString (now clock)) <> []
            /\ field_or BlogPost.date ed (toISOString clock) <> []).
  { intros [ep|]; simpl; [|split; [apply toString_nonempty | exact Hiso]].
    unfold or_else. split.
    - destruct (BlogPost.id ep) eqn:E; simpl;
        [apply toString_nonempty | discriminate].
    - destruct (BlogPost.date ep) eqn:E; simpl; [exact Hiso | discriminate]. }
  destruct (snd (validateForm st)) eqn:V.
  - rewrite (handleSubmit_valid clock st V). cbv zeta. cbn [fst posts].
    destruct (editingPost st) as [ep|] eqn:Hed.
    + rewrite in_map_iff. intros (q & <- & Hq).
      destruct (str_eqb (BlogPost.id q) (BlogPost.id ep));
        [apply (Hnew (Some ep)) | apply Hall, Hq].
    + rewrite in_app_iff. intros [Hp | [<- | []]];
        [apply Hall, Hp | apply (Hnew None)].
  - rewrite (handleSubmit_invalid clock st V). apply Hall.
Qed.

(** C1. In the Editing state, where [editingPost] is a record of the
    collection, ids are unique, and the edited record has an id and a date
    (as every record of the data model has: the form writes no empty id and
    no empty date), a submit with a valid draft yields a collection of
    the same length in which, at each place, the record with the edited id
    has the draft's title and content and its own id and date, every other
    record is the one that was there; the same collection is written to the
    device storage, where the next mount reads it, and the form returns to
    the Creating state. *)
Theorem C1_update_in_place (clock : Clock) (st : State) (ep : BlogPost.t) :
  editingPost st = Some ep ->
  snd (validateForm st) = true ->
  In ep (posts st) ->
  NoDup (map BlogPost.id (posts st)) ->
  BlogPost.id ep <> [] ->
  BlogPost.date ep <> [] ->
  let st' := fst (handleSubmit clock st) in
  updated_in_place (formData st) ep (posts st) (posts st')
  /\ snd (handleSubmit clock st)
     = [LocalStorageSet (lit "blogPosts") (stringify (posts st'))]
  /\ (forall sto, mountEffect (apply_effects (snd (handleSubmit clock st)) sto)
                              initial
                  = Mounted (setPosts (posts st') initial))
  /\ editingPost st' = None.
Proof.
  intros Hed Hvalid Hin ND Hid Hdate.
  rewrite (handleSubmit_valid clock st Hvalid), Hed; simpl.
  rewrite (or_else_truthy _ Hid), (or_else_truthy _ Hdate).
  split; [|split; [reflexivity|split; [|reflexivity]]].
  2:{ intros sto. unfold apply_effects; simpl.
      apply Persistence.mount_after_write. }
  split; [apply length_map|].
  intros i p Hi. rewrite nth_error_map, Hi; simpl. f_equal.
  destruct (str_eqb (BlogPost.id p) (BlogPost.id ep)) eqn:E; [|reflexivity].
  apply str_eqb_eq in E.
  assert (p = ep) as ->.
  { eapply unique_id; eauto. eapply nth_error_In; eauto. }
  reflexivity.
Qed.

Lemma C1_witness :
  updated_in_place c1_draft c1_post [c1_other; c1_post]
    (posts (fst (handleSubmit c1_clock
                   (mkState [c1_other; c1_post] (Some c1_post) c1_draft
                            FormErrors.empty))))
  /\ nth_error (posts (fst (handleSubmit c1_clock
                   (mkState [c1_other; c1_post] (Some c1_post) c1_draft
                            FormErrors.empty)))) 1
     = Some (BlogPost.mk (lit "1700000000000") (lit "New title")
               (lit "A new content that is long enough to pass the length rule.")
               (lit "2023-11-14T22:13:20.000Z")).
Proof.
  split; [|vm_compute; reflexivity].
  apply (@C1_update_in_place c1_clock
           (mkState [c1_other; c1_post] (Some c1_post) c1_draft FormErrors.empty)
           c1_post).
  - reflexivity.
  - vm_compute; reflexivity.
  - simpl; auto.
  - repeat constructor; simpl; intuition discriminate.
  - vm_compute; discriminate.
  - vm_compute; discriminate.
Defined.

(** The way into the Editing state: [handleEdit] on a row of the table keeps
    the collection, remembers the record and fills the draft from it. *)
Lemma handleEdit_enters_editing (post : BlogPost.t) (st : State) :
  let st1 := handleEdit post st in
  posts st1 = posts st
  /\ editingPost st1 = Some post
  /\ formData st1 = BlogDraft.mk (BlogPost.title post) (BlogPost.content post)
  /\ formErrors st1 = formErrors st.
Proof. repeat split. Qed.

(** The whole path at the sample collection: edit the second row, type a
    new title and a new content, submit. *)
Example edit_type_submit :
  let st0 := setPosts [c1_other; c1_post] initial in
  let st1 := handleEdit c1_post st0 in
  let st2 := onContentChange (BlogDraft.content c1_draft)
               (onTitleChange (BlogDraft.title c1_draft) st1) in
  handleSubmit c1_clock st2
  = (setPosts [c1_other;
               BlogPost.mk (BlogPost.id c1_post) (BlogDraft.title c1_draft)
                 (BlogDraft.content c1_draft) (BlogPost.date c1_post)] initial,
     [LocalStorageSet (lit "blogPosts")
        (stringify [c1_other;
                    BlogPost.mk (BlogPost.id c1_post) (BlogDraft.title c1_draft)
                      (BlogDraft.content c1_draft) (BlogPost.date c1_post)])]).
Proof. vm_compute. reflexivity. Qed.

(** Outside the data model: were a record with the empty string for id in
    the collection (the form writes none; a stored blob could hold one), an
    update of it would give it the clock's id, because
    [editingPost?.id || Date.now().toString()] takes an empty id for a
    missing one. *)
Lemma update_of_empty_id :
  let ep := BlogPost.mk (lit "") (lit "Old title") (lit "old") (lit "2023") in
  let st := mkState [ep] (Some ep) c1_draft FormErrors.empty in
  editingPost st = Some ep
  /\ snd (validateForm st) = true
  /\ In ep (posts st)
  /\ NoDup (map BlogPost.id (posts st))
  /\ posts (fst (handleSubmit c1_clock st))
     = [BlogPost.mk (lit "1800000000000") (BlogDraft.title c1_draft)
                    (BlogDraft.content c1_draft) (lit "2023")]
  /\ ~ updated_in_place (formData st) ep (posts st)
         (posts (fst (handleSubmit c1_clock st))).
Proof.
  intros ep st. split; [reflexivity|]. split; [vm_compute; reflexivity|].
  split; [left; reflexivity|]. split; [repeat constructor; simpl; tauto|].
  split; [vm_compute; reflexivity|].
  intros [_ H]. specialize (H 0 ep eq_refl). vm_compute in H. discriminate.
Qed.

End BlogSubmit.

(** ** The blog store: the read at mount *)

Section BlogMount.
Import AdminBlog Samples.




(** A blob that [handleSubmit] wrote is read back as the collection. *)
Example mount_reads_back :
  mountEffect sto_written initial = Mounted (setPosts [c1_other; c1_post] initial).
Proof. vm_compute. reflexivity. Qed.

End BlogMount.

(** ** Validation *)

Section Validation.
Import Samples.

Variable URL_parses : jsstring -> bool.

(** What [validateForm] leaves in each field of [errors], field by field. *)
Lemma projects_errors_by_field (d : ProjectDraft.t) :
  let e := AdminProjects.collect_errors URL_parses d in
  AdminProjects.FormErrors.title e
  = (if negb (truthy (trim (ProjectDraft.title d)))
     then Some (lit "Başlık zorunludur")
     else if length (ProjectDraft.title d) <? 3
          then Some (lit "Başlık en az 3 karakter olmalıdır") else None)
  /\ AdminProjects.FormErrors.description e
     = (if negb (truthy (trim (ProjectDraft.description d)))
        then Some (lit "Açıklama zorunludur")
        else if length (ProjectDraft.description d) <? 10
             then Some (lit "Açıklama en az 10 karakter olmalıdır") else None)
  /\ AdminProjects.FormErrors.image e
     = (if truthy (ProjectDraft.image d) && negb (URL_parses (ProjectDraft.image d))
        then Some (lit "Geçerli bir URL giriniz") else None)
  /\ AdminProjects.FormErrors.link e
     = (if truthy (ProjectDraft.link d) && negb (URL_parses (ProjectDraft.link d))
        then Some (lit "Geçerli bir URL giriniz") else None).
Proof.
  unfold AdminProjects.collect_errors, AdminProjects.isValidUrl.
  generalize (negb (truthy (trim (ProjectDraft.title d))))
             (length (ProjectDraft.title d) <? 3)
             (negb (truthy (trim (ProjectDraft.description d))))
             (length (ProjectDraft.description d) <? 10)
             (truthy (ProjectDraft.image d)) (URL_parses (ProjectDraft.image d))
             (truthy (ProjectDraft.link d)) (URL_parses (ProjectDraft.link d)).
  generalize (lit "Başlık zorunludur") (lit "Başlık en az 3 karakter olmalıdır")
             (lit "Açıklama zorunludur")
             (lit "Açıklama en az 10 karakter olmalıdır")
             (lit "Geçerli bir URL giriniz").
  intros m1 m2 m3 m4 m5 [] [] [] [] [] [] [] []; cbv; auto.
Qed.

Lemma blog_errors_by_field (b : BlogDraft.t) :
  let e := AdminBlog.collect_errors b in
  AdminBlog.FormErrors.title e
  = (if negb (truthy (trim (BlogDraft.title b)))
     then Some (lit "Başlık zorunludur")
     else if length (BlogDraft.title b) <? 3
          then Some (lit "Başlık en az 3 karakter olmalıdır") else None)
  /\ AdminBlog.FormErrors.content e
     = (if negb (truthy (trim (BlogDraft.content b)))
        then Some (lit "İçerik zorunludur")
        else if length (BlogDraft.content b) <? 50
             then Some (lit "İçerik en az 50 karakter olmalıdır") else None).
Proof.
  unfold AdminBlog.collect_errors.
  generalize (negb (truthy (trim (BlogDraft.title b))))
             (length (BlogDraft.title b) <? 3)
             (negb (truthy (trim (BlogDraft.content b))))
             (length (BlogDraft.content b) <? 50).
  generalize (lit "Başlık zorunludur") (lit "Başlık en az 3 karakter olmalıdır")
             (lit "İçerik zorunludur") (lit "İçerik en az 50 karakter olmalıdır").
  intros m1 m2 m3 m4 [] [] [] []; cbv; auto.
Qed.


(** Validation reads the draft and nothing else of the state, and writes the
    error annotations and nothing else. *)
Lemma projects_validateForm_pure (st1 st2 : AdminProjects.State) :
  AdminProjects.formData st1 = AdminProjects.formData st2 ->
  AdminProjects.formErrors (fst (AdminProjects.validateForm URL_parses st1))
  = AdminProjects.formErrors (fst (AdminProjects.validateForm URL_parses st2))
  /\ snd (AdminProjects.validateForm URL_parses st1)
     = snd (AdminProjects.validateForm URL_parses st2).
Proof. unfold AdminProjects.validateForm; simpl. intros ->. split; reflexivity. Qed.

Lemma blog_validateForm_pure (st1 st2 : AdminBlog.State) :
  AdminBlog.formData st1 = AdminBlog.formData st2 ->
  AdminBlog.formErrors (fst (AdminBlog.validateForm st1))
  = AdminBlog.formErrors (fst (AdminBlog.validateForm st2))
  /\ snd (AdminBlog.validateForm st1) = snd (AdminBlog.validateForm st2).
Proof. unfold AdminBlog.validateForm; simpl. intros ->. split; reflexivity. Qed.

(** C2. Validation checks every field on every run and leaves all the
    errors found in the error annotations, and nothing else of the state
    changes. After [validateForm], for every draft, each annotation is what
    the rule of its own field says of that field alone; the verdict is true
    exactly when no annotation was set; and two states with the same draft
    get the same annotations and the same verdict. In particular a project
    draft whose title and description are empty gets a title error and a
    description error while its image and link annotations are what the URL
    rule says of the image and of the link, and a blog draft whose title is
    empty gets a title error while its content annotation is what the
    content rule says of the content; both are refused. *)
Theorem C2_validation_collects_all_errors
    (st : AdminProjects.State) (st' : AdminBlog.State) :
  let d := AdminProjects.formData st in
  let b := AdminBlog.formData st' in
  let r := AdminProjects.validateForm URL_parses st in
  let r' := AdminBlog.validateForm st' in
  let e := AdminProjects.formErrors (fst r) in
  let e' := AdminBlog.formErrors (fst r') in
  let title_rule (t : jsstring) :=
    if negb (truthy (trim t)) then Some (lit "Başlık zorunludur")
    else if length t <? 3 then Some (lit "Başlık en az 3 karakter olmalıdır")
    else None in
  let description_rule (t : jsstring) :=
    if negb (truthy (trim t)) then Some (lit "Açıklama zorunludur")
    else if length t <? 10 then Some (lit "Açıklama en az 10 karakter olmalıdır")
    else None in
  let content_rule (t : jsstring) :=
    if negb (truthy (trim t)) then Some (lit "İçerik zorunludur")
    else if length t <? 50 then Some (lit "İçerik en az 50 karakter olmalıdır")
    else None in
  let url_rule (t : jsstring) :=
    if truthy t && negb (URL_parses t) then Some (lit "Geçerli bir URL giriniz")
    else None in
  (AdminProjects.FormErrors.title e = title_rule (ProjectDraft.title d)
   /\ AdminProjects.FormErrors.description e
      = description_rule (ProjectDraft.description d)
   /\ AdminProjects.FormErrors.image e = url_rule (ProjectDraft.image d)
   /\ AdminProjects.FormErrors.link e = url_rule (ProjectDraft.link d))
  /\ (AdminBlog.FormErrors.title e' = title_rule (BlogDraft.title b)
      /\ AdminBlog.FormErrors.content e' = content_rule (BlogDraft.content b))
  /\ (fst r = AdminProjects.setFormErrors e st
      /\ fst r' = AdminBlog.setFormErrors e' st')
  /\ ((snd r = true <-> e = AdminProjects.FormErrors.empty)
      /\ (snd r' = true <-> e' = AdminBlog.FormErrors.empty))
  /\ (ProjectDraft.title d = [] -> ProjectDraft.description d = [] ->
      AdminProjects.FormErrors.title e = Some (lit "Başlık zorunludur")
      /\ AdminProjects.FormErrors.description e = Some (lit "Açıklama zorunludur")
      /\ AdminProjects.FormErrors.image e = url_rule (ProjectDraft.image d)
      /\ AdminProjects.FormErrors.link e = url_rule (ProjectDraft.link d)
      /\ snd r = false)
  /\ (BlogDraft.title b = [] ->
      AdminBlog.FormErrors.title e' = Some (lit "Başlık zorunludur")
      /\ AdminBlog.FormErrors.content e' = content_rule (BlogDraft.content b)
      /\ snd r' = false)
  /\ (forall st2, AdminProjects.formData st2 = d ->
        AdminProjects.formErrors (fst (AdminProjects.validateForm URL_parses st2))
        = e
        /\ snd (AdminProjects.validateForm URL_parses st2) = snd r)
  /\ (forall st2, AdminBlog.formData st2 = b ->
        AdminBlog.formErrors (fst (AdminBlog.validateForm st2)) = e'
        /\ snd (AdminBlog.validateForm st2) = snd r').
Proof.
  cbv zeta.
  destruct (projects_errors_by_field (AdminProjects.formData st))
    as (P1 & P2 & P3 & P4).
  destruct (blog_errors_by_field (AdminBlog.formData st')) as (B1 & B2).
  cbv zeta in P1, P2, P3, P4, B1, B2.
  unfold AdminProjects.validateForm, AdminBlog.validateForm.
  cbn [fst snd AdminProjects.formErrors AdminProjects.setFormErrors
       AdminBlog.formErrors AdminBlog.setFormErrors].
  set (e := AdminProjects.collect_errors URL_parses (AdminProjects.formData st))
    in *.
  set (e' := AdminBlog.collect_errors (AdminBlog.formData st')) in *.
  assert (V : (length (AdminProjects.FormErrors.keys e) =? 0) = true
              <-> e = AdminProjects.FormErrors.empty).
  { unfold AdminProjects.FormErrors.keys, AdminProjects.FormErrors.empty.
    destruct e as [[t|] [d|] [i|] [l|]]; simpl; split; intros H;
      try discriminate; reflexivity. }
  assert (V' : (length (AdminBlog.FormErrors.keys e') =? 0) = true
               <-> e' = AdminBlog.FormErrors.empty).
  { unfold AdminBlog.FormErrors.keys, AdminBlog.FormErrors.empty.
    destruct e' as [[t|] [c|]]; simpl; split; intros H;
      try discriminate; reflexivity. }
  split; [repeat split; assumption|].
  split; [split; assumption|].
  split; [split; reflexivity|].
  split; [split; assumption|].
  split; [|split; [|split]].
  - intros Ht Hd. rewrite Ht in P1. rewrite Hd in P2.
    change (trim []) with (@nil N) in P1, P2. cbn [truthy negb] in P1, P2.
    repeat split; try assumption.
    apply not_true_is_false. intros K. apply V in K. rewrite K in P1.
    discriminate.
  - intros Hb. rewrite Hb in B1.
    change (trim []) with (@nil N) in B1. cbn [truthy negb] in B1.
    repeat split; try assumption.
    apply not_true_is_false. intros K. apply V' in K. rewrite K in B1.
    discriminate.
  - intros st2 ->. split; reflexivity.
  - intros st2 ->. split; reflexivity.
Qed.

Lemma rule_passes_iff (value : jsstring) (n : nat) (m1 m2 : jsstring) :
  (if negb (truthy (trim value)) then Some m1
   else if length value <? n then Some m2 else None) = None
  <-> trim value <> [] /\ n <= length value.
Proof.
  rewrite <- truthy_nonempty.
  destruct (truthy (trim value)); simpl.
  - destruct (Nat.ltb_spec (length value) n); split;
      try discriminate; try tauto; intros [_ ?]; lia.
  - split; [discriminate | intros [? _]; discriminate].
Qed.

(** C4 (amended). Only the emptiness test looks at the trimmed value; the
    length is that of the value as typed. A draft passes the title rule iff
    its trimmed title is not empty and its title has at least 3 code units,
    the description rule iff its trimmed description is not empty and its
    description has at least 10, the content rule iff its trimmed content is
    not empty and its content has at least 50. *)
Theorem C4_length_rules_on_typed_value (d : ProjectDraft.t) (b : BlogDraft.t) :
  (AdminProjects.FormErrors.title (AdminProjects.collect_errors URL_parses d) = None
   <-> trim (ProjectDraft.title d) <> [] /\ 3 <= length (ProjectDraft.title d))
  /\ (AdminProjects.FormErrors.description
        (AdminProjects.collect_errors URL_parses d) = None
      <-> trim (ProjectDraft.description d) <> []
          /\ 10 <= length (ProjectDraft.description d))
  /\ (AdminBlog.FormErrors.title (AdminBlog.collect_errors b) = None
      <-> trim (BlogDraft.title b) <> [] /\ 3 <= length (BlogDraft.title b))
  /\ (AdminBlog.FormErrors.content (AdminBlog.collect_errors b) = None
      <-> trim (BlogDraft.content b) <> [] /\ 50 <= length (BlogDraft.content b)).
Proof.
  destruct (projects_errors_by_field d) as (P1 & P2 & _).
  destruct (blog_errors_by_field b) as (B1 & B2).
  cbv zeta in P1, P2, B1, B2. rewrite P1, P2, B1, B2.
  split; [|split; [|split]]; apply rule_passes_iff.
Qed.

End Validation.

Section ValidationAt.
Import Samples.

Lemma C2_witness :
  let st := AdminProjects.setFormData (project_draft "" "") AdminProjects.initial in
  let e := AdminProjects.formErrors (fst (AdminProjects.validateForm has_scheme st)) in
  AdminProjects.FormErrors.title e = Some (lit "Başlık zorunludur")
  /\ AdminProjects.FormErrors.description e = Some (lit "Açıklama zorunludur")
  /\ AdminProjects.FormErrors.image e = Some (lit "Geçerli bir URL giriniz")
  /\ AdminProjects.FormErrors.link e = None
  /\ snd (AdminProjects.validateForm has_scheme st) = false.
Proof.
  intros st e.
  destruct (@C2_validation_collects_all_errors has_scheme st AdminBlog.initial)
    as (_ & _ & _ & _ & H & _).
  destruct H as (H1 & H2 & H3 & H4 & H5); try reflexivity.
  repeat split; assumption.
Defined.

Lemma C4_witness :
  AdminBlog.FormErrors.title
    (AdminBlog.collect_errors (BlogDraft.mk (lit "  ab  ") (lit "x"))) = None.
Proof.
  apply (proj1 (proj2 (proj2 (@C4_length_rules_on_typed_value has_scheme
           (project_draft "abc" "a description")
           (BlogDraft.mk (lit "  ab  ") (lit "x")))))).
  split; [vm_compute; discriminate | vm_compute; lia].
Defined.

(** C4 as stated fails: the title [a], followed by two spaces, has one code
    unit once trimmed, and both forms accept it; with a content that passes,
    the blog submit goes through. *)
Lemma C4_counterexample :
  let b := BlogDraft.mk (lit "a  ") (BlogDraft.content c1_draft) in
  length (trim (lit "a  ")) = 1
  /\ AdminBlog.FormErrors.title (AdminBlog.collect_errors b) = None
  /\ snd (AdminBlog.validateForm (AdminBlog.setFormData b AdminBlog.initial)) = true
  /\ AdminProjects.FormErrors.title
       (AdminProjects.collect_errors has_scheme
          (project_draft "a  " "a description")) = None.
Proof. vm_compute. repeat split; reflexivity. Qed.

End ValidationAt.

(** ** Rejected submits *)

Section RejectedSubmit.
Import Samples.

Variable URL_parses : jsstring -> bool.

(** C3. A submit whose draft fails validation returns at once: the state
    after it is the state before it with the error annotations replaced by
    the errors collected, the handler performs no effect at all (no request
    to the remote service, no write to the device storage), so the collection
    and what is stored are what they were. This holds for both forms. *)
Theorem C3_rejected_submit_touches_nothing
    (ans : AdminProjects.Answers) (st : AdminProjects.State)
    (clock : AdminBlog.Clock) (st' : AdminBlog.State) :
  snd (AdminProjects.validateForm URL_parses st) = false ->
  snd (AdminBlog.validateForm st') = false ->
  let r := AdminProjects.handleSubmit URL_parses ans st in
  let r' := AdminBlog.handleSubmit clock st' in
  (fst r = AdminProjects.setFormErrors
             (AdminProjects.collect_errors URL_parses (AdminProjects.formData st)) st
   /\ snd r = []
   /\ AdminProjects.projects (fst r) = AdminProjects.projects st)
  /\ (fst r' = AdminBlog.setFormErrors
                 (AdminBlog.collect_errors (AdminBlog.formData st')) st'
      /\ snd r' = []
      /\ AdminBlog.posts (fst r') = AdminBlog.posts st'
      /\ forall sto, apply_effects (snd r') sto = sto).
Proof.
  intros H H'. cbv zeta.
  rewrite (handleSubmit_invalid clock st' H').
  unfold AdminProjects.handleSubmit.
  unfold AdminProjects.validateForm in *. simpl in H. rewrite H. simpl.
  repeat split; reflexivity.
Qed.

End RejectedSubmit.

Section RejectedSubmitAt.
Import Samples.

Lemma C3_witness :
  snd (AdminProjects.handleSubmit has_scheme answers_ok
         (AdminProjects.setFormData (project_draft "A title" "")
                                    AdminProjects.initial)) = []
  /\ snd (AdminBlog.handleSubmit c1_clock
            (AdminBlog.mkState [c1_other; c1_post] (Some c1_post)
               (BlogDraft.mk (lit "ab") (lit "too short"))
               AdminBlog.FormErrors.empty)) = [].
Proof.
  destruct (@C3_rejected_submit_touches_nothing has_scheme answers_ok
              (AdminProjects.setFormData (project_draft "A title" "")
                                         AdminProjects.initial)
              c1_clock
              (AdminBlog.mkState [c1_other; c1_post] (Some c1_post)
                 (BlogDraft.mk (lit "ab") (lit "too short"))
                 AdminBlog.FormErrors.empty))
    as ((_ & H & _) & (_ & H' & _)).
  - vm_compute; reflexivity.
  - vm_compute; reflexivity.
  - split; [exact H | exact H'].
Defined.

End RejectedSubmitAt.

(** ** Editing a field *)

Section FieldEdits.
Import Samples.

(** Editing the title clears the title error and keeps the other
    annotations, in both forms; nothing is validated again. *)
Lemma title_edit_clears_title_error :
  (forall v st,
     let e := AdminProjects.formErrors st in
     AdminProjects.formErrors (AdminProjects.onTitleChange v st)
     = AdminProjects.FormErrors.mk None (AdminProjects.FormErrors.description e)
         (AdminProjects.FormErrors.image e) (AdminProjects.FormErrors.link e))
  /\ (forall v st,
        AdminBlog.formErrors (AdminBlog.onTitleChange v st)
        = AdminBlog.FormErrors.mk None
            (AdminBlog.FormErrors.content (AdminBlog.formErrors st))).
Proof. split; reflexivity. Qed.

(** C5, on the code. Editing the description, the image, the link or the
    tags of a project, or the content of a blog post, leaves the error
    annotations as they are, the one of the edited field too: after a submit
    refused for an empty description, typing a description that passes the
    rule leaves the description error in place. Only the title's handler
    clears its error. *)
Theorem C5_only_title_edit_clears_its_error :
  (forall v st, AdminProjects.formErrors (AdminProjects.onDescriptionChange v st)
                = AdminProjects.formErrors st)
  /\ (forall v st, AdminProjects.formErrors (AdminProjects.onImageChange v st)
                   = AdminProjects.formErrors st)
  /\ (forall v st, AdminProjects.formErrors (AdminProjects.onLinkChange v st)
                   = AdminProjects.formErrors st)
  /\ (forall v st, AdminProjects.formErrors (AdminProjects.onTagsChange v st)
                   = AdminProjects.formErrors st)
  /\ (forall v st, AdminBlog.formErrors (AdminBlog.onContentChange v st)
                   = AdminBlog.formErrors st)
  /\ AdminProjects.FormErrors.description (AdminProjects.formErrors projects_refused)
     = Some (lit "Açıklama zorunludur")
  /\ AdminProjects.FormErrors.description
       (AdminProjects.formErrors
          (AdminProjects.onDescriptionChange (lit "A description long enough")
                                             projects_refused))
     = Some (lit "Açıklama zorunludur").
Proof. repeat split; vm_compute; reflexivity. Qed.

End FieldEdits.

(** ** Deleting a record *)

Section Delete.
Import Samples.

(** The project store asks before it deletes: the dialog is the first effect
    of the handler, the delete request comes after it, and when the user
    answers no the state is unchanged and no request is sent. *)
Lemma projects_delete_is_confirmed (ans : AdminProjects.Answers) (id : jsstring)
                                   (st : AdminProjects.State) :
  confirmed_writes false (snd (AdminProjects.handleDelete ans id st)) = true
  /\ hd_error (snd (AdminProjects.handleDelete ans id st))
     = Some (Confirm AdminProjects.confirmDelete)
  /\ (AdminProjects.confirmed ans = false ->
      AdminProjects.handleDelete ans id st
      = (st, [Confirm AdminProjects.confirmDelete])).
Proof.
  unfold AdminProjects.handleDelete, AdminProjects.loadProjects.
  destruct ans as [c w l]; simpl.
  destruct c, w, l; simpl; repeat split; try reflexivity; discriminate.
Qed.

(** C6, on the code. The blog store deletes without asking: the only effect
    of its handler is the write of the filtered collection to the device
    storage, no confirmation dialog comes before it, and the user is given no
    way to answer no. At a collection of two records, the delete of the
    second leaves the first alone, in the state and in the storage. *)
Theorem C6_blog_delete_asks_nothing :
  (forall id st,
     snd (AdminBlog.handleDelete id st)
     = [LocalStorageSet (lit "blogPosts")
          (AdminBlog.stringify (AdminBlog.posts (fst (AdminBlog.handleDelete id st))))]
     /\ confirmed_writes false (snd (AdminBlog.handleDelete id st)) = false
     /\ existsb is_confirm (snd (AdminBlog.handleDelete id st)) = false)
  /\ AdminBlog.handleDelete (BlogPost.id c1_post)
       (AdminBlog.setPosts [c1_other; c1_post] AdminBlog.initial)
     = (AdminBlog.setPosts [c1_other] AdminBlog.initial,
        [LocalStorageSet (lit "blogPosts") (AdminBlog.stringify [c1_other])]).
Proof.
  split; [intros id st; repeat split | vm_compute; reflexivity].
Qed.

End Delete.

(** ** The fallback image *)

Section FallbackImage.
Import Image Samples.

Lemma step_keeps_error (i : Instance) (e : Event) :
  error (state i) = true -> error (state (step i e)) = true.
Proof.
  intros H. destruct e as [|p]; simpl; [|exact H].
  destruct (onError (props i)); simpl; [exact H | reflexivity].
Qed.

Lemma run_keeps_error (es : list Event) :
  forall i, error (state i) = true -> error (state (run i es)) = true.
Proof.
  unfold run. induction es as [|e es IH]; intros i H; simpl; [exact H|].
  apply IH, step_keeps_error, H.
Qed.

Lemma view_when_errored (i : Instance) :
  error (state i) = true -> img_src (view i) = Some (fallback_of (props i)).
Proof. unfold view, Image; simpl. intros ->. reflexivity. Qed.

(** C9 (amended). The first render of a mounted instance shows the supplied
    source. When the image fails to load while the caller has passed no
    [onError] of its own, the flag is set, and after any further events
    (failures, renders with any props) it is still set and what is shown is
    the fallback of the props of the last render, not the source. *)
Theorem C9_fallback_after_failure (p : ImageProps) (es1 es2 : list Event) :
  img_src (view (mount p)) = src p
  /\ (onError (props (run (mount p) es1)) = None ->
      let i := run (mount p) (es1 ++ LoadFailure :: es2) in
      error (state i) = true
      /\ img_src (view i) = Some (fallback_of (props i))).
Proof.
  split; [reflexivity|]. intros H i.
  assert (E : error (state i) = true).
  { unfold i, run. rewrite fold_left_app. simpl.
    apply run_keeps_error. unfold run in H. rewrite H. reflexivity. }
  split; [exact E | apply view_when_errored, E].
Qed.

Lemma C9_witness :
  img_src (view (run (mount (image_props None))
                     [Rerender (image_props None); LoadFailure;
                      Rerender (image_props (Some 1)); LoadFailure]))
  = Some (lit "/images/other.png").
Proof.
  apply (proj2 (C9_fallback_after_failure (image_props None)
                  [Rerender (image_props None)]
                  [Rerender (image_props (Some 1)); LoadFailure])).
  reflexivity.
Defined.

(** C9 as stated fails: when the caller passes an [onError] of its own, it
    replaces the component's on the [img]; the image fails to load, the flag
    stays unset, and the next render shows the source again. *)
Lemma C9_counterexample :
  let i := run (mount (image_props (Some 1)))
               [LoadFailure; Rerender (image_props (Some 1))] in
  img_onError (view (mount (image_props (Some 1)))) = Callers 1
  /\ error (state i) = false
  /\ img_src (view i) = Some (lit "/images/photo.png")
  /\ img_src (view i) <> Some (lit "/images/other.png").
Proof. vm_compute. repeat split; discriminate. Qed.

(** C10 (amended). Without a [fallback] prop the fallback shown is
    [/images/placeholder.png]: when the image fails to load while the caller
    has passed no [onError] of its own, then after any further events every
    view whose props have no [fallback] shows the placeholder; and any render
    with the flag set and no [fallback] prop shows it. *)
Theorem C10_default_fallback (p : ImageProps) (es1 es2 : list Event) :
  (onError (props (run (mount p) es1)) = None ->
   let i := run (mount p) (es1 ++ LoadFailure :: es2) in
   fallback (props i) = None ->
   error (state i) = true
   /\ img_src (view i) = Some (lit "/images/placeholder.png"))
  /\ (fallback p = None ->
      forall st, img_src (Image p (setError true st))
                 = Some (lit "/images/placeholder.png")).
Proof.
  split.
  - intros H i Hf.
    assert (E : error (state i) = true).
    { unfold i, run. rewrite fold_left_app. simpl.
      apply run_keeps_error. unfold run in H. rewrite H. reflexivity. }
    split; [exact E|]. rewrite (view_when_errored i E).
    unfold fallback_of. rewrite Hf. reflexivity.
  - intros H st. unfold Image, fallback_of; simpl. rewrite H. reflexivity.
Qed.

Lemma C10_witness :
  img_src (view (run (mount (mkProps (Some (lit "/images/photo.png")) None
                                     None None))
                     ([] ++ LoadFailure
                         :: [Rerender (mkProps (Some (lit "/images/b.png")) None
                                               None (Some 1))])))
  = Some (lit "/images/placeholder.png").
Proof.
  apply (proj1 (@C10_default_fallback
                  (mkProps (Some (lit "/images/photo.png")) None None None)
                  [] [Rerender (mkProps (Some (lit "/images/b.png")) None
                                        None (Some 1))])).
  - reflexivity.
  - reflexivity.
Defined.

(** C10 as stated fails: the caller passes no [fallback] and an [onError] of
    its own; the image fails to load, and what is shown is still the source,
    not the placeholder. *)
Lemma C10_counterexample :
  let p := mkProps (Some (lit "/images/photo.png")) None None (Some 1) in
  fallback p = None
  /\ img_src (view (run (mount p) [LoadFailure]))
     = Some (lit "/images/photo.png")
  /\ img_src (view (run (mount p) [LoadFailure]))
     <> Some (lit "/images/placeholder.png").
Proof. vm_compute. repeat split; discriminate. Qed.

End FallbackImage.

(** * The code around the claims *)

(** ** The blog form: accepted submits *)

Section BlogAccepted.
Import AdminBlog.

(** When [validateForm] accepts, it has collected no error. *)
Lemma blog_valid_no_errors (st : State) :
  snd (validateForm st) = true -> collect_errors (formData st) = FormErrors.empty.
Proof.
  unfold validateForm; simpl. unfold FormErrors.keys.
  destruct (collect_errors (formData st)) as [[t|] [c|]]; simpl;
    try discriminate. reflexivity.
Qed.

(** X1. In the Creating state an accepted submit appends one record to the
    collection: its id is the decimal writing of the clock's time, its date
    the clock's ISO text, its title and content those of the draft; the
    records that were there stay, in their order; the new collection is what
    is written under the storage key. *)
Theorem blog_create_appends (clock : Clock) (st : State) :
  editingPost st = None ->
  snd (validateForm st) = true ->
  let newPost := BlogPost.mk (toString (now clock)) (BlogDraft.title (formData st))
                   (BlogDraft.content (formData st)) (toISOString clock) in
  posts (fst (handleSubmit clock st)) = posts st ++ [newPost]
  /\ (forall i p, nth_error (posts st) i = Some p ->
                  nth_error (posts (fst (handleSubmit clock st))) i = Some p)
  /\ snd (handleSubmit clock st)
     = [LocalStorageSet (lit "blogPosts") (stringify (posts st ++ [newPost]))].
Proof.
  intros Hed Hvalid newPost.
  rewrite (handleSubmit_valid clock st Hvalid), Hed; simpl.
  split; [reflexivity|]. split; [|reflexivity].
  intros i p Hi. rewrite nth_error_app1; [exact Hi|].
  apply nth_error_Some. congruence.
Qed.

(** X2. After an accepted submit, creating or updating, the form is as at
    mount: no record is being edited, the draft is empty and no error
    annotation is left, whatever the annotations were before. *)
Theorem blog_accepted_submit_resets_form (clock : Clock) (st : State) :
  snd (validateForm st) = true ->
  let st' := fst (handleSubmit clock st) in
  editingPost st' = None
  /\ formData st' = formData initial
  /\ formErrors st' = FormErrors.empty
  /\ st' = setPosts (posts st') initial.
Proof.
  intros Hvalid. rewrite (handleSubmit_valid clock st Hvalid).
  cbv zeta. cbn [fst]. rewrite (blog_valid_no_errors st Hvalid).
  repeat split.
Qed.

Lemma blog_update_miss (clock : Clock) (st : State) (ep : BlogPost.t) :
  editingPost st = Some ep ->
  snd (validateForm st) = true ->
  (forall p, In p (posts st) -> BlogPost.id p <> BlogPost.id ep) ->
  handleSubmit clock st
  = (setPosts (posts st) initial,
     [LocalStorageSet (lit "blogPosts") (stringify (posts st))]).
Proof.
  intros Hed Hvalid Hmiss.
  rewrite (handleSubmit_valid clock st Hvalid), Hed. cbv zeta.
  rewrite (blog_valid_no_errors st Hvalid).
  assert (E : forall new, map (fun p => if str_eqb (BlogPost.id p) (BlogPost.id ep)
                                        then new else p) (posts st) = posts st).
  { intros new. rewrite <- (map_id (posts st)) at 2. apply map_ext_in.
    intros p Hp. apply Hmiss in Hp. apply str_eqb_neq in Hp. rewrite Hp.
    reflexivity. }
  rewrite E. reflexivity.
Qed.

(** X3. An update whose record is gone changes no record and tells nobody:
    the collection is the one before, it is written again as it is, and the
    draft is dropped. This is what happens to an edit whose record is
    deleted before the submit: the delete leaves the form in the Editing
    state, and the submit that follows is accepted and lost. *)
Theorem blog_update_of_missing_record (clock : Clock) (st : State)
                                      (ep : BlogPost.t) :
  editingPost st = Some ep ->
  snd (validateForm st) = true ->
  ((forall p, In p (posts st) -> BlogPost.id p <> BlogPost.id ep) ->
   handleSubmit clock st
   = (setPosts (posts st) initial,
      [LocalStorageSet (lit "blogPosts") (stringify (posts st))]))
  /\ (let st1 := fst (handleDelete (BlogPost.id ep) st) in
      editingPost st1 = Some ep
      /\ handleSubmit clock st1
         = (setPosts (posts st1) initial,
            [LocalStorageSet (lit "blogPosts") (stringify (posts st1))])).
Proof.
  intros Hed Hvalid. split; [apply blog_update_miss; assumption|].
  cbv zeta. split; [exact Hed|].
  apply (@blog_update_miss clock (fst (handleDelete (BlogPost.id ep) st)) ep);
    [exact Hed | exact Hvalid |].
  intros p Hp. apply (filter_id_removes _ _ _ Hp).
Qed.

End BlogAccepted.

(** ** The blog store: unique ids *)

Section BlogIds.
Import AdminBlog.

Lemma NoDup_snoc (A : Type) (l : list A) (x : A) :
  NoDup (l ++ [x]) <-> NoDup l /\ ~ In x l.
Proof.
  split.
  - intros H. apply NoDup_remove in H. rewrite app_nil_r in H. exact H.
  - intros [H1 H2]. apply NoDup_app; [exact H1 | repeat constructor; intros [] |].
    intros a Ha [<- | []]. exact (H2 Ha).
Qed.

(** X4. A create keeps the ids of the collection distinct exactly when the
    decimal writing of the clock's time is not an id yet: two creates within
    one millisecond give two records with one id. *)
Theorem blog_create_unique_iff_fresh (clock : Clock) (st : State) :
  editingPost st = None ->
  snd (validateForm st) = true ->
  NoDup (map BlogPost.id (posts st)) ->
  (NoDup (map BlogPost.id (posts (fst (handleSubmit clock st))))
   <-> ~ In (toString (now clock)) (map BlogPost.id (posts st))).
Proof.
  intros Hed Hvalid ND.
  rewrite (handleSubmit_valid clock st Hvalid), Hed; simpl.
  rewrite map_app; simpl. rewrite NoDup_snoc. tauto.
Qed.

Lemma map_id_filter_NoDup (f : BlogPost.t -> bool) (ps : list BlogPost.t) :
  NoDup (map BlogPost.id ps) -> NoDup (map BlogPost.id (filter f ps)).
Proof.
  induction ps as [|p ps IH]; simpl; intros ND; [constructor|].
  inversion ND as [|? ? Hnot ND']; subst.
  destruct (f p); simpl; [|auto].
  constructor; [|auto]. intros Hin. apply Hnot.
  apply in_map_iff in Hin. destruct Hin as (q & Hq & Hin).
  apply filter_In in Hin. rewrite <- Hq. apply in_map, Hin.
Qed.

Lemma NoDup_rename (x y : jsstring) (l : list jsstring) :
  NoDup l -> ~ In y l ->
  NoDup (map (fun i => if str_eqb i x then y else i) l).
Proof.
  induction l as [|a l IH]; simpl; intros ND Hy; [constructor|].
  inversion ND as [|? ? Ha ND']; subst.
  constructor; [|apply IH; tauto].
  rewrite in_map_iff. intros (b & Hb & Hin).
  destruct (str_eqb a x) eqn:Ea, (str_eqb b x) eqn:Eb;
    try apply str_eqb_eq in Ea; try apply str_eqb_eq in Eb; subst.
  - exact (Ha Hin).
  - apply Hy. right. exact Hin.
  - apply Hy. left. reflexivity.
  - exact (Ha Hin).
Qed.

Lemma submit_ids (clock : Clock) (st : State) (ep : BlogPost.t) :
  editingPost st = Some ep ->
  snd (validateForm st) = true ->
  map BlogPost.id (posts (fst (handleSubmit clock st)))
  = map (fun i => if str_eqb i (BlogPost.id ep)
                  then or_else (BlogPost.id ep) (toString (now clock)) else i)
        (map BlogPost.id (posts st)).
Proof.
  intros Hed Hvalid.
  rewrite (handleSubmit_valid clock st Hvalid), Hed; simpl.
  rewrite !map_map. apply map_ext. intros p.
  destruct (str_eqb (BlogPost.id p) (BlogPost.id ep)); reflexivity.
Qed.

Lemma step_submit_fst (clock : Clock) (st : State) (sto : Storage) :
  fst (BlogMachine.step (st, sto) (BlogMachine.ClickSubmit clock))
  = fst (handleSubmit clock st).
Proof. simpl. destruct (handleSubmit clock st); reflexivity. Qed.

(** X5. Distinct ids stay distinct through every event of the page, as long
    as the clock read by a submit gives a text that is not an id yet: typing,
    edits and cancels leave the collection alone, a refused submit too, a
    delete only takes records away, an update keeps the id of its record (or
    gives it the clock's, when it was empty), a create appends the clock's. *)
Theorem blog_step_keeps_ids_unique (w : State * Storage)
                                   (e : BlogMachine.Event) :
  NoDup (map BlogPost.id (posts (fst w))) ->
  (forall clock, e = BlogMachine.ClickSubmit clock ->
     ~ In (toString (now clock)) (map BlogPost.id (posts (fst w)))) ->
  NoDup (map BlogPost.id (posts (fst (BlogMachine.step w e)))).
Proof.
  destruct w as [st sto]. cbn [fst]. intros ND Hfresh.
  destruct e as [v|v|clock|row|row|]; try exact ND.
  - specialize (Hfresh clock eq_refl). rewrite step_submit_fst.
    destruct (snd (validateForm st)) eqn:V.
    + destruct (editingPost st) as [ep|] eqn:Hed.
      * rewrite (submit_ids clock st Hed V).
        destruct (BlogPost.id ep) as [|c i] eqn:Ei.
        -- apply NoDup_rename; assumption.
        -- rewrite map_ext with (g := fun i => i), map_id; [exact ND|].
           intros a. destruct (str_eqb a (c :: i)) eqn:Ea; [|reflexivity].
           apply str_eqb_eq in Ea. subst a. reflexivity.
      * rewrite (handleSubmit_valid clock st V), Hed; simpl.
        rewrite map_app; simpl. apply NoDup_snoc. tauto.
    + rewrite (handleSubmit_invalid clock st V). simpl. exact ND.
  - simpl. destruct (nth_error (posts st) row); simpl; exact ND.
  - simpl. destruct (nth_error (posts st) row); simpl; [|exact ND].
    apply map_id_filter_NoDup, ND.
  - simpl. destruct (BlogView.cancelShown st); simpl; exact ND.
Qed.

End BlogIds.

(** ** The blog page: storage and screen agree *)

Section BlogSync.
Import AdminBlog BlogMachine.

Lemma mounted_in_sync (sto : Storage) (st0 : State) :
  mountEffect sto initial = Mounted st0 -> in_sync (st0, sto).
Proof.
  unfold in_sync; simpl. intros H. rewrite H. f_equal.
  unfold mountEffect in H.
  destruct (getItem sto (lit "blogPosts")) as [s|].
  - destruct (truthy s).
    + destruct (JSON.parse s) as [v|]; [|discriminate].
      destruct (as_posts v); [|discriminate].
      inversion H; subst. reflexivity.
    + inversion H; subst. reflexivity.
  - inversion H; subst. reflexivity.
Qed.

Lemma step_in_sync (w : State * Storage) (e : Event) :
  in_sync w -> in_sync (step w e).
Proof.
  destruct w as [st sto]. unfold in_sync; simpl. intros H.
  destruct e as [v|v|clock|row|row|]; simpl; try exact H.
  - destruct (snd (validateForm st)) eqn:V.
    + rewrite (handleSubmit_valid clock st V). cbv zeta. cbn [fst snd posts].
      unfold apply_effects; simpl. apply Persistence.mount_after_write.
    + rewrite (handleSubmit_invalid clock st V). simpl. exact H.
  - destruct (nth_error (posts st) row); simpl; exact H.
  - destruct (nth_error (posts st) row); simpl; [|exact H].
    unfold apply_effects; simpl. apply Persistence.mount_after_write.
  - destruct (BlogView.cancelShown st); simpl; exact H.
Qed.

(** X6. At any moment of a session the device storage holds the collection
    that is on the screen: after a mount that completes and any sequence of
    typing, submits (accepted or not), edits, deletes and cancels, a new
    mount on the storage as it is then gives the collection of the state. *)
Theorem blog_storage_follows_screen (sto : Storage) (st0 : State)
                                    (es : list Event) :
  mountEffect sto initial = Mounted st0 ->
  mountEffect (snd (run (st0, sto) es)) initial
  = Mounted (setPosts (posts (fst (run (st0, sto) es))) initial).
Proof.
  intros H. apply mounted_in_sync in H. unfold run.
  revert H. generalize (st0, sto). induction es as [|e es IH]; intros w H.
  - exact H.
  - simpl. apply IH, step_in_sync, H.
Qed.

End BlogSync.

(** ** The blog page: edit, cancel, and the table *)

Section BlogEdit.
Import AdminBlog BlogMachine.

(** X7. Picking a row for edit and submitting without typing leaves the
    collection as it is: the draft filled from the record either fails
    validation (the record was stored with fields that do not pass) and
    nothing happens, or replaces the record by itself. *)
Theorem blog_edit_then_submit_unchanged (clock : Clock) (st : State)
                                        (p : BlogPost.t) :
  In p (posts st) ->
  NoDup (map BlogPost.id (posts st)) ->
  BlogPost.id p <> [] ->
  BlogPost.date p <> [] ->
  posts (fst (handleSubmit clock (handleEdit p st))) = posts st.
Proof.
  intros Hin ND Hid Hdate.
  destruct (snd (validateForm (handleEdit p st))) eqn:V.
  - rewrite (handleSubmit_valid clock (handleEdit p st) V). simpl.
    rewrite (or_else_truthy _ Hid), (or_else_truthy _ Hdate).
    rewrite <- (map_id (posts st)) at 2. apply map_ext_in.
    intros q Hq. destruct (str_eqb (BlogPost.id q) (BlogPost.id p)) eqn:E;
      [|reflexivity].
    apply str_eqb_eq in E.
    assert (q = p) as -> by (eapply unique_id; eauto).
    destruct p; reflexivity.
  - rewrite (handleSubmit_invalid clock (handleEdit p st) V). reflexivity.
Qed.

Lemma typing_keeps_editing (es : list Event) :
  forallb typing es = true ->
  forall st sto,
    let w := run (st, sto) es in
    posts (fst w) = posts st /\ editingPost (fst w) = editingPost st
    /\ snd w = sto.
Proof.
  unfold run. induction es as [|e es IH]; intros Hty st sto; simpl.
  - repeat split.
  - simpl in Hty. apply andb_true_iff in Hty. destruct Hty as [He Hes].
    destruct e; try discriminate; simpl;
      match goal with
      | |- context [fold_left step es (?s, sto)] =>
          destruct (IH Hes s sto) as (H1 & H2 & H3);
          rewrite H1, H2, H3; repeat split
      end.
Qed.

(** X8. Cancel gives up an edit whatever was typed: after the edit button of
    a row, any typing in the two fields and the cancel button, the form is in
    the Creating state with an empty draft, and neither the collection nor
    the device storage has changed. *)
Theorem blog_edit_type_cancel (st : State) (sto : Storage) (row : nat)
                              (p : BlogPost.t) (es : list Event) :
  nth_error (posts st) row = Some p ->
  forallb typing es = true ->
  let w := run (st, sto) (ClickEdit row :: es ++ [ClickCancel]) in
  posts (fst w) = posts st
  /\ snd w = sto
  /\ editingPost (fst w) = None
  /\ formData (fst w) = formData initial.
Proof.
  intros Hrow Hty. unfold run. cbn [fold_left]. rewrite fold_left_app.
  cbn [step]. rewrite Hrow.
  destruct (typing_keeps_editing es Hty (handleEdit p st) sto) as (H1 & H2 & H3).
  unfold run in *.
  destruct (fold_left step es (handleEdit p st, sto)) as [st1 sto1].
  cbn [fst snd] in *. cbn [fold_left step]. unfold BlogView.cancelShown.
  rewrite H2. simpl. repeat split; assumption.
Qed.

(** X9. The content cell of the table holds the content when it has at most
    100 code units, and its first 100 code units followed by three dots
    otherwise: it never has more than 103, and it starts as the content
    does. *)
Theorem content_cell_bounded (post : BlogPost.t) :
  length (BlogView.contentCell post)
  = (if 100 <? length (BlogPost.content post)
     then 103 else length (BlogPost.content post))
  /\ length (BlogView.contentCell post) <= 103
  /\ firstn 100 (BlogView.contentCell post) = firstn 100 (BlogPost.content post).
Proof.
  unfold BlogView.contentCell.
  destruct (Nat.ltb_spec 100 (length (BlogPost.content post))) as [H|H].
  - assert (L : length (firstn 100 (BlogPost.content post)) = 100)
      by (rewrite length_firstn; lia).
    rewrite length_app, L.
    change (length (lit "...")) with 3.
    split; [reflexivity|]. split; [lia|].
    rewrite firstn_app, L. rewrite Nat.sub_diag, firstn_O.
    rewrite app_nil_r, firstn_firstn. reflexivity.
  - split; [reflexivity|]. split; [lia | reflexivity].
Qed.

End BlogEdit.

(** ** Validation: white space, and the verdict *)

Section Verdict.

Variable URL_parses : jsstring -> bool.

Lemma trim_start_all_space (s : jsstring) :
  forallb is_trim_space s = true -> trim_start s = [].
Proof.
  induction s as [|c s IH]; simpl; [reflexivity|].
  intros H. apply andb_true_iff in H. destruct H as [-> H]. auto.
Qed.

Lemma trim_all_space (s : jsstring) :
  forallb is_trim_space s = true -> trim s = [].
Proof. intros H. unfold trim. rewrite (trim_start_all_space s H). reflexivity. Qed.

(** X10. A field made of white space only is a missing field, however long
    it is: a title, a description or a content of spaces, tabs or line breaks
    gets the error of the empty field (not the one of the short field), and
    the submit is refused. *)
Theorem blank_fields_are_missing (d : ProjectDraft.t) (b : BlogDraft.t) :
  (forallb is_trim_space (ProjectDraft.title d) = true ->
   AdminProjects.FormErrors.title (AdminProjects.collect_errors URL_parses d)
   = Some (lit "Başlık zorunludur"))
  /\ (forallb is_trim_space (ProjectDraft.description d) = true ->
      AdminProjects.FormErrors.description
        (AdminProjects.collect_errors URL_parses d)
      = Some (lit "Açıklama zorunludur"))
  /\ (forallb is_trim_space (BlogDraft.title b) = true ->
      AdminBlog.FormErrors.title (AdminBlog.collect_errors b)
      = Some (lit "Başlık zorunludur"))
  /\ (forallb is_trim_space (BlogDraft.content b) = true ->
      AdminBlog.FormErrors.content (AdminBlog.collect_errors b)
      = Some (lit "İçerik zorunludur")).
Proof.
  destruct (projects_errors_by_field URL_parses d) as (P1 & P2 & _).
  destruct (blog_errors_by_field b) as (B1 & B2).
  cbv zeta in P1, P2, B1, B2. rewrite P1, P2, B1, B2.
  repeat split; intros H; rewrite (trim_all_space _ H); reflexivity.
Qed.

Lemma url_rule_passes_iff (value m : jsstring) :
  (if truthy value && negb (URL_parses value) then Some m else None) = None
  <-> value = [] \/ URL_parses value = true.
Proof.
  destruct value as [|c v]; simpl.
  - split; auto.
  - destruct (URL_parses (c :: v)); simpl; split; auto; try discriminate.
    intros [H|H]; discriminate.
Qed.

Lemma projects_verdict (st : AdminProjects.State) :
  snd (AdminProjects.validateForm URL_parses st) = true
  <-> AdminProjects.collect_errors URL_parses (AdminProjects.formData st)
      = AdminProjects.FormErrors.empty.
Proof.
  unfold AdminProjects.validateForm; simpl. unfold AdminProjects.FormErrors.keys.
  destruct (AdminProjects.collect_errors URL_parses (AdminProjects.formData st))
    as [[t|] [d|] [i|] [l|]]; simpl; split; intros H; try discriminate;
    reflexivity.
Qed.

Lemma blog_verdict (st : AdminBlog.State) :
  snd (AdminBlog.validateForm st) = true
  <-> AdminBlog.collect_errors (AdminBlog.formData st) = AdminBlog.FormErrors.empty.
Proof.
  unfold AdminBlog.validateForm; simpl. unfold AdminBlog.FormErrors.keys.
  destruct (AdminBlog.collect_errors (AdminBlog.formData st)) as [[t|] [c|]];
    simpl; split; intros H; try discriminate; reflexivity.
Qed.

(** X11. What a submit needs to be accepted. A project draft is accepted
    exactly when its title is not blank and has at least 3 code units, its
    description is not blank and has at least 10, and its image and its link
    are each empty or a text the URL parser takes; a blog draft exactly when
    its title is not blank and has at least 3 code units and its content is
    not blank and has at least 50. *)
Theorem accepted_iff (st : AdminProjects.State) (st' : AdminBlog.State) :
  (snd (AdminProjects.validateForm URL_parses st) = true
   <-> (trim (ProjectDraft.title (AdminProjects.formData st)) <> []
        /\ 3 <= length (ProjectDraft.title (AdminProjects.formData st)))
       /\ (trim (ProjectDraft.description (AdminProjects.formData st)) <> []
           /\ 10 <= length (ProjectDraft.description (AdminProjects.formData st)))
       /\ (ProjectDraft.image (AdminProjects.formData st) = []
           \/ URL_parses (ProjectDraft.image (AdminProjects.formData st)) = true)
       /\ (ProjectDraft.link (AdminProjects.formData st) = []
           \/ URL_parses (ProjectDraft.link (AdminProjects.formData st)) = true))
  /\ (snd (AdminBlog.validateForm st') = true
      <-> (trim (BlogDraft.title (AdminBlog.formData st')) <> []
           /\ 3 <= length (BlogDraft.title (AdminBlog.formData st')))
          /\ (trim (BlogDraft.content (AdminBlog.formData st')) <> []
              /\ 50 <= length (BlogDraft.content (AdminBlog.formData st')))).
Proof.
  split.
  - rewrite projects_verdict.
    destruct (projects_errors_by_field URL_parses (AdminProjects.formData st))
      as (P1 & P2 & P3 & P4). cbv zeta in *.
    set (e := AdminProjects.collect_errors URL_parses (AdminProjects.formData st))
      in *.
    pose proof (rule_passes_iff URL_parses (ProjectDraft.title (AdminProjects.formData st)) 3
                  (lit "Başlık zorunludur")
                  (lit "Başlık en az 3 karakter olmalıdır")) as T.
    pose proof (rule_passes_iff URL_parses
                  (ProjectDraft.description (AdminProjects.formData st)) 10
                  (lit "Açıklama zorunludur")
                  (lit "Açıklama en az 10 karakter olmalıdır")) as D.
    pose proof (url_rule_passes_iff (ProjectDraft.image (AdminProjects.formData st))
                  (lit "Geçerli bir URL giriniz")) as I.
    pose proof (url_rule_passes_iff (ProjectDraft.link (AdminProjects.formData st))
                  (lit "Geçerli bir URL giriniz")) as L.
    rewrite <- P1 in T. rewrite <- P2 in D. rewrite <- P3 in I. rewrite <- P4 in L.
    rewrite <- T, <- D, <- I, <- L.
    destruct e as [t d i l]; simpl. unfold AdminProjects.FormErrors.empty.
    split; [intros H; inversion H; auto|].
    intros (-> & -> & -> & ->). reflexivity.
  - rewrite blog_verdict.
    destruct (blog_errors_by_field (AdminBlog.formData st')) as (B1 & B2).
    cbv zeta in *.
    set (e := AdminBlog.collect_errors (AdminBlog.formData st')) in *.
    pose proof (rule_passes_iff URL_parses (BlogDraft.title (AdminBlog.formData st')) 3
                  (lit "Başlık zorunludur")
                  (lit "Başlık en az 3 karakter olmalıdır")) as T.
    pose proof (rule_passes_iff URL_parses (BlogDraft.content (AdminBlog.formData st')) 50
                  (lit "İçerik zorunludur")
                  (lit "İçerik en az 50 karakter olmalıdır")) as C.
    rewrite <- B1 in T. rewrite <- B2 in C.
    rewrite <- T, <- C.
    destruct e as [t c]; simpl. unfold AdminBlog.FormErrors.empty.
    split; [intros H; inversion H; auto|]. intros (-> & ->). reflexivity.
Qed.

End Verdict.

(** ** The tags input *)

Section Tags.
Import AdminProjects ProjectsView.

Lemma trim_start_suffix (s : jsstring) :
  exists pre, s = pre ++ trim_start s.
Proof.
  induction s as [|c s [pre IH]]; simpl.
  - exists []. reflexivity.
  - destruct (is_trim_space c).
    + exists (c :: pre). simpl. congruence.
    + exists []. reflexivity.
Qed.

Lemma trim_start_head (s r : jsstring) (c : N) :
  trim_start s = c :: r -> is_trim_space c = false.
Proof.
  induction s as [|a s IH]; simpl; [discriminate|].
  destruct (is_trim_space a) eqn:E; [exact IH|].
  intros H; inversion H; subst. exact E.
Qed.

Lemma trim_start_fixed (r : jsstring) (c : N) :
  is_trim_space c = false -> trim_start (c :: r) = c :: r.
Proof. intros H. simpl. rewrite H. reflexivity. Qed.

Lemma trim_start_idem (s : jsstring) : trim_start (trim_start s) = trim_start s.
Proof.
  destruct (trim_start s) as [|c r] eqn:E; [reflexivity|].
  apply trim_start_fixed. eapply trim_start_head; eauto.
Qed.

Lemma In_trim_start (c : N) (s : jsstring) : In c (trim_start s) -> In c s.
Proof.
  destruct (trim_start_suffix s) as [pre E]. intros H. rewrite E.
  apply in_or_app. right. exact H.
Qed.

Lemma In_trim (c : N) (s : jsstring) : In c (trim s) -> In c s.
Proof.
  unfold trim. intros H. apply in_rev in H. apply In_trim_start in H.
  apply in_rev in H. apply In_trim_start in H. exact H.
Qed.

(** [trim] of a trimmed text is the text. *)
Lemma trim_idem (s : jsstring) : trim (trim s) = trim s.
Proof.
  unfold trim.
  set (a := trim_start s).
  destruct (trim_start_suffix (rev a)) as [pre E].
  set (b := trim_start (rev a)) in *.
  destruct b as [|c b'] eqn:Eb; [reflexivity|].
  assert (Hc : is_trim_space c = false)
    by (apply (trim_start_head (rev a) Eb)).
  assert (Ha : a = rev (c :: b') ++ rev pre).
  { rewrite <- rev_app_distr, <- E, rev_involutive. reflexivity. }
  destruct (rev (c :: b')) as [|x t] eqn:Er.
  { apply (f_equal (@length N)) in Er. rewrite length_rev in Er. discriminate. }
  assert (Hx : is_trim_space x = false).
  { destruct a as [|y a'] eqn:Ea'; [discriminate|].
    simpl in Ha. inversion Ha; subst y.
    unfold a in Ea'. eapply trim_start_head; eauto. }
  assert (Er' : rev (x :: t) = c :: b').
  { rewrite <- Er. apply rev_involutive. }
  rewrite (@trim_start_fixed t x Hx), Er', (@trim_start_fixed b' c Hc).
  exact Er.
Qed.

Lemma split_comma_pieces (s : jsstring) :
  forall cur piece, ~ In 44%N cur -> In piece (split_comma s cur) ->
                    ~ In 44%N piece.
Proof.
  induction s as [|c s IH]; intros cur piece Hcur; simpl.
  - intros [<- | []]. rewrite <- in_rev. exact Hcur.
  - destruct (N.eqb_spec c 44).
    + intros [<- | H]; [rewrite <- in_rev; exact Hcur|].
      apply (IH [] piece); auto.
    + apply IH. intros [E | H]; [congruence | exact (Hcur H)].
Qed.

Lemma onTagsChange_tags (value : jsstring) (st : State) :
  ProjectDraft.tags (formData (onTagsChange value st)) = tags_of value.
Proof. reflexivity. Qed.

(** X12. Whatever is typed in the tags input, every tag kept is a non-empty
    text without a comma and without white space at either end, and the
    handler changes the tags of the draft only. *)
Theorem tags_are_clean (value : jsstring) (st : State) :
  let st' := onTagsChange value st in
  (forall t, In t (ProjectDraft.tags (formData st')) ->
             t <> [] /\ trim t = t /\ ~ In 44%N t)
  /\ st' = setFormData
             (ProjectDraft.mk (ProjectDraft.title (formData st))
                (ProjectDraft.description (formData st))
                (ProjectDraft.image (formData st))
                (ProjectDraft.link (formData st))
                (ProjectDraft.tags (formData st'))) st.
Proof.
  split; [|reflexivity].
  intros t Ht. rewrite onTagsChange_tags in Ht. unfold tags_of in Ht.
  apply filter_In in Ht. destruct Ht as [Ht Hne].
  apply in_map_iff in Ht. destruct Ht as (piece & <- & Hp).
  split; [apply truthy_nonempty, Hne|]. split; [apply trim_idem|].
  intros H. apply In_trim in H. revert H.
  apply (@split_comma_pieces value [] piece); [intros [] | exact Hp].
Qed.

End Tags.

Section TagsRoundTrip.
Import AdminProjects ProjectsView.

Lemma split_comma_app (t s cur : jsstring) :
  ~ In 44%N t -> split_comma (t ++ s) cur = split_comma s (rev t ++ cur).
Proof.
  revert cur; induction t as [|c t IH]; intros cur Ht; simpl; [reflexivity|].
  destruct (N.eqb_spec c 44) as [->|Hc]; [exfalso; apply Ht; left; reflexivity|].
  rewrite IH by (intros H; apply Ht; right; exact H).
  rewrite <- app_assoc. reflexivity.
Qed.

Lemma split_comma_tagsValue (rest : list jsstring) :
  forall t cur,
    (forall u, In u (t :: rest) -> ~ In 44%N u) ->
    split_comma (tagsValue (t :: rest)) cur
    = (rev cur ++ t) :: map (fun u => 32%N :: u) rest.
Proof.
  induction rest as [|u rest IH]; intros t cur Hc.
  - cbn [tagsValue map]. rewrite <- (app_nil_r t) at 1.
    rewrite split_comma_app by (apply Hc; left; reflexivity).
    simpl. rewrite rev_app_distr, rev_involutive. reflexivity.
  - change (tagsValue (t :: u :: rest))
      with (t ++ 44%N :: 32%N :: tagsValue (u :: rest)).
    rewrite split_comma_app by (apply Hc; left; reflexivity).
    cbn [split_comma]. change (44 =? 44)%N with true. cbv iota.
    change (32 =? 44)%N with false. cbv iota.
    rewrite IH by (intros v Hv; apply Hc; right; exact Hv).
    rewrite rev_app_distr, rev_involutive. reflexivity.
Qed.

Lemma trim_after_space (u : jsstring) : trim (32%N :: u) = trim u.
Proof. reflexivity. Qed.

(** X13. The tags input shows the tags joined by a comma and a space, and
    reading that text gives the tags back, in their order, repeated ones
    included, when each tag is a non-empty text without a comma and without
    white space at either end (as every tag the handler keeps is). *)
Theorem tags_read_back (tags : list jsstring) (st : State) :
  (forall t, In t tags -> t <> [] /\ trim t = t /\ ~ In 44%N t) ->
  ProjectDraft.tags (formData (onTagsChange (tagsValue tags) st)) = tags.
Proof.
  intros Hclean. rewrite onTagsChange_tags. unfold tags_of.
  destruct tags as [|t rest]; [reflexivity|].
  rewrite split_comma_tagsValue by (intros u Hu; apply (Hclean u Hu)).
  cbn [rev app map]. rewrite map_map.
  assert (E : map (fun u => trim (32%N :: u)) rest = rest).
  { rewrite <- (map_id rest) at 2. apply map_ext_in.
    intros u Hu. rewrite trim_after_space.
    apply (Hclean u). right. exact Hu. }
  rewrite E. destruct (Hclean t (or_introl eq_refl)) as (_ & -> & _).
  apply forallb_filter_id. apply forallb_forall.
  intros u Hu. apply truthy_nonempty. apply (Hclean u Hu).
Qed.

Lemma split_comma_trailing (s : jsstring) :
  forall cur, split_comma (s ++ [44%N]) cur = split_comma s cur ++ [[]].
Proof.
  induction s as [|c s IH]; intros cur; simpl; [reflexivity|].
  destruct (c =? 44)%N; rewrite IH; reflexivity.
Qed.

(** X14. A comma typed at the end of the tags input is lost: the handler
    reads the same tags with and without it, so the state after the key
    stroke is the state the text without the comma gives. *)
Theorem tags_trailing_comma_lost (value : jsstring) (st : State) :
  onTagsChange (value ++ [44%N]) st = onTagsChange value st.
Proof.
  unfold onTagsChange. rewrite split_comma_trailing, map_app, filter_app.
  simpl. rewrite app_nil_r. reflexivity.
Qed.

End TagsRoundTrip.

(** ** The project form and the remote service *)

Section ProjectsRequests.
Import AdminProjects.

Variable URL_parses : jsstring -> bool.

Lemma draft_eta (d : ProjectDraft.t) :
  ProjectDraft.mk (ProjectDraft.title d) (ProjectDraft.description d)
                  (ProjectDraft.image d) (ProjectDraft.link d)
                  (ProjectDraft.tags d) = d.
Proof. destruct d; reflexivity. Qed.

Lemma projects_valid_no_errors (st : State) :
  snd (validateForm URL_parses st) = true ->
  collect_errors URL_parses (formData st) = FormErrors.empty.
Proof.
  unfold validateForm; simpl. unfold FormErrors.keys.
  destruct (collect_errors URL_parses (formData st)) as [[t|] [d|] [i|] [l|]];
    simpl; try discriminate. reflexivity.
Qed.

(** X15. An accepted submit sends one write request, built from the draft as
    it is: an update of the id of the record being edited, or a create when
    none is. When the service takes it and answers the reload, the collection
    is the service's answer (not the old one with a change), the form is back
    in the Creating state with an empty draft and no annotation, no banner is
    shown and the page is not loading. *)
Theorem projects_submit_success (ans : Answers) (st : State)
                                (data : list Project.t) :
  snd (validateForm URL_parses st) = true ->
  write_ok ans = true ->
  loaded ans = Some data ->
  handleSubmit URL_parses ans st
  = (mkState data None false None emptyDraft FormErrors.empty,
     [match editingProject st with
      | Some ep => ApiUpdate (Project.id ep) (formData st)
      | None => ApiCreate (formData st)
      end; ApiGetAll]).
Proof.
  intros V W L. unfold handleSubmit, loadProjects.
  pose proof (projects_valid_no_errors st V) as E.
  unfold validateForm in *. simpl in V. rewrite V, W, L, E, draft_eta. simpl.
  reflexivity.
Qed.

(** X16. When the service refuses the write of an accepted submit, nothing
    is lost and nothing is reloaded: the draft and the record being edited
    stay, so the submit can be tried again, the collection is the one before,
    a banner is shown, the page is not loading, and the only request sent is
    the write. When the write is taken but the reload fails, the form is
    reset all the same, the collection on screen is the old one and the
    banner is the one of a failed load. *)
Theorem projects_submit_failures (ans : Answers) (st : State) :
  snd (validateForm URL_parses st) = true ->
  let request := match editingProject st with
                 | Some ep => ApiUpdate (Project.id ep) (formData st)
                 | None => ApiCreate (formData st)
                 end in
  (write_ok ans = false ->
   handleSubmit URL_parses ans st
   = (mkState (projects st) (editingProject st) false
              (Some (lit "İşlem sırasında bir hata oluştu"))
              (formData st) FormErrors.empty,
      [request; ConsoleError]))
  /\ (write_ok ans = true -> loaded ans = None ->
      handleSubmit URL_parses ans st
      = (mkState (projects st) None false
                 (Some (lit "Projeler yüklenirken bir hata oluştu"))
                 emptyDraft FormErrors.empty,
         [request; ApiGetAll; ConsoleError])).
Proof.
  intros V request. unfold request, handleSubmit, loadProjects.
  pose proof (projects_valid_no_errors st V) as E.
  unfold validateForm in *. simpl in V. rewrite V, E, draft_eta.
  split; [intros W | intros W L]; rewrite W; [|rewrite L]; reflexivity.
Qed.

(** X17. A delete never touches the form: the record being edited, the draft
    and the annotations are the same after it, also when the record deleted
    is the one being edited. When the user confirms and the service takes
    the delete and answers the reload, the collection is the service's
    answer and no banner is shown; when the service refuses the delete, the
    collection is the one before, a banner is shown and nothing is
    reloaded. *)
Theorem projects_delete_outcomes (ans : Answers) (id : jsstring) (st : State) :
  let st' := fst (handleDelete ans id st) in
  (editingProject st' = editingProject st
   /\ formData st' = formData st
   /\ formErrors st' = formErrors st)
  /\ (confirmed ans = true -> write_ok ans = true ->
      forall data, loaded ans = Some data ->
      handleDelete ans id st
      = (mkState data (editingProject st) false None (formData st) (formErrors st),
         [Confirm confirmDelete; ApiDelete id; ApiGetAll]))
  /\ (confirmed ans = true -> write_ok ans = false ->
      handleDelete ans id st
      = (mkState (projects st) (editingProject st) false
                 (Some (lit "Silme işlemi sırasında bir hata oluştu"))
                 (formData st) (formErrors st),
         [Confirm confirmDelete; ApiDelete id; ConsoleError])).
Proof.
  unfold handleDelete, loadProjects. destruct ans as [c w l]; simpl.
  split; [|split].
  - destruct c, w, l; simpl; repeat split.
  - intros -> -> data ->. reflexivity.
  - intros -> ->. reflexivity.
Qed.

(** X18. The requests of a handler follow one pattern: at most one write
    request is sent, the collection is asked for again exactly when a write
    was sent and the service took it, and the page is never left loading by
    a handler that sent a request. *)
Theorem projects_request_pattern (ans : Answers) (id : jsstring) (st : State) :
  let s := handleSubmit URL_parses ans st in
  let d := handleDelete ans id st in
  length (filter is_store_write (snd s)) <= 1
  /\ length (filter is_store_write (snd d)) <= 1
  /\ (In ApiGetAll (snd s)
      <-> snd (validateForm URL_parses st) = true /\ write_ok ans = true)
  /\ (In ApiGetAll (snd d) <-> confirmed ans = true /\ write_ok ans = true)
  /\ loading (fst s)
     = (if snd (validateForm URL_parses st) then false else loading st)
  /\ loading (fst d) = (if confirmed ans then false else loading st).
Proof.
  cbv zeta. unfold handleSubmit, handleDelete, loadProjects, validateForm.
  cbn [fst snd].
  destruct (length (FormErrors.keys (collect_errors URL_parses (formData st))) =? 0);
    destruct ans as [c w l]; cbn [confirmed write_ok loaded negb];
    destruct c, w, l, (editingProject st); cbn;
    repeat match goal with |- _ /\ _ => split end;
    try lia; try reflexivity;
    (split;
     [ intros H; repeat (destruct H as [H|H]; try discriminate); auto;
       try contradiction
     | intros [H1 H2]; try discriminate; auto ]).
Qed.

(** X19. Picking a project for edit fills the draft from it, a missing
    image or link as the empty text, which the URL rule lets pass; the
    collection and the annotations stay. An accepted submit right after it
    asks the service to update the record of that id with the record's own
    title, description and tags and its image and link (or the empty text);
    the cancel button instead brings a form that was in the Creating state
    with an empty draft back to where it was. *)
Theorem projects_edit_fills_draft (ans : Answers) (p : Project.t) (st : State) :
  let st1 := handleEdit p st in
  let d := ProjectDraft.mk (Project.title p) (Project.description p)
             (opt_or (Project.image p) []) (opt_or (Project.link p) [])
             (Project.tags p) in
  (formData st1 = d /\ editingProject st1 = Some p
   /\ projects st1 = projects st /\ formErrors st1 = formErrors st)
  /\ (Project.image p = None ->
      FormErrors.image (collect_errors URL_parses (formData st1)) = None)
  /\ (Project.link p = None ->
      FormErrors.link (collect_errors URL_parses (formData st1)) = None)
  /\ (snd (validateForm URL_parses st1) = true ->
      hd_error (snd (handleSubmit URL_parses ans st1))
      = Some (ApiUpdate (Project.id p) d))
  /\ (editingProject st = None -> formData st = emptyDraft ->
      resetForm st1 = st).
Proof.
  cbv zeta. split; [repeat split|]. split; [|split; [|split]].
  - intros Hi.
    destruct (projects_errors_by_field URL_parses (formData (handleEdit p st)))
      as (_ & _ & P3 & _). cbv zeta in P3. rewrite P3. simpl. rewrite Hi.
    reflexivity.
  - intros Hl.
    destruct (projects_errors_by_field URL_parses (formData (handleEdit p st)))
      as (_ & _ & _ & P4). cbv zeta in P4. rewrite P4. simpl. rewrite Hl.
    reflexivity.
  - intros V. unfold handleSubmit.
    unfold validateForm in *. cbn [snd] in V. rewrite V. cbn [negb].
    cbn [handleEdit setFormData setEditingProject editingProject formData].
    destruct (write_ok ans); [|reflexivity].
    destruct (loadProjects (loaded ans) _). reflexivity.
  - intros He Hd. destruct st as [ps e l er d fe]. simpl in *. subst.
    reflexivity.
Qed.

End ProjectsRequests.

(** ** The image: runs without a failure, runs with the caller's handler *)

Section ImageRuns.
Import Image.

(** X20. The fallback is never shown by itself: as long as no load fails,
    whatever the props of the renders are, the flag is unset and the image
    shows the source of the props of the last render. *)
Theorem image_shows_source_until_failure (p : ImageProps) (es : list Event) :
  ~ In LoadFailure es ->
  let i := run (mount p) es in
  error (state i) = false /\ img_src (view i) = src (props i).
Proof.
  intros H. cbv zeta.
  assert (E : error (state (run (mount p) es)) = false).
  { unfold run.
    assert (G : forall i, error (state i) = false ->
                          error (state (fold_left step es i)) = false).
    { induction es as [|e es IH]; intros i Hi; simpl; [exact Hi|].
      apply IH.
      - intros F. apply H. right. exact F.
      - destruct e as [|q]; [exfalso; apply H; left; reflexivity | exact Hi]. }
    apply G. reflexivity. }
  split; [exact E|]. unfold view, Image; simpl. rewrite E. reflexivity.
Qed.

(** X21. With an [onError] of the caller on every render, the component
    never learns of a failure: however often the image fails to load, the
    flag stays unset and the source is shown again, never the fallback. *)
Theorem image_callers_handler_hides_failures (p : ImageProps)
                                             (es : list Event) :
  onError p <> None ->
  (forall q, In (Rerender q) es -> onError q <> None) ->
  let i := run (mount p) es in
  error (state i) = false /\ img_src (view i) = src (props i).
Proof.
  intros Hp Hes. cbv zeta.
  assert (E : error (state (run (mount p) es)) = false).
  { unfold run.
    assert (G : forall i, error (state i) = false -> onError (props i) <> None ->
                          (forall q, In (Rerender q) es -> onError q <> None) ->
                          error (state (fold_left step es i)) = false).
    { clear. induction es as [|e es IH]; intros i Hi Ho Hes; simpl; [exact Hi|].
      apply IH.
      - destruct e as [|q]; simpl; [|exact Hi].
        destruct (onError (props i)); [exact Hi | congruence].
      - destruct e as [|q]; simpl.
        + destruct (onError (props i)) eqn:E; [rewrite E; discriminate | congruence].
        + apply Hes. left. reflexivity.
      - intros q Hq. apply Hes. right. exact Hq. }
    apply G; auto. }
  split; [exact E|]. unfold view, Image; simpl. rewrite E. reflexivity.
Qed.

End ImageRuns.

(** ** The properties at the sample data *)

Section BlogAt.
Import AdminBlog Samples MoreSamples.

Lemma blog_create_appends_witness :
  posts (fst (handleSubmit c1_clock blog_creating))
  = [c1_other; c1_post]
    ++ [BlogPost.mk (toString (now c1_clock)) (BlogDraft.title c1_draft)
          (BlogDraft.content c1_draft) (toISOString c1_clock)].
Proof.
  refine (proj1 (@blog_create_appends c1_clock blog_creating _ _)).
  - reflexivity.
  - vm_compute; reflexivity.
Defined.

Lemma blog_accepted_submit_resets_form_witness :
  formErrors (fst (handleSubmit c1_clock
                     (setFormErrors (FormErrors.mk (Some (lit "old")) None)
                                    blog_editing)))
  = FormErrors.empty.
Proof.
  refine (proj1 (proj2 (proj2 (@blog_accepted_submit_resets_form c1_clock
            (setFormErrors (FormErrors.mk (Some (lit "old")) None) blog_editing)
            _)))).
  vm_compute; reflexivity.
Defined.

Lemma blog_update_of_missing_record_witness :
  handleSubmit c1_clock (fst (handleDelete (BlogPost.id c1_post) blog_editing))
  = (setPosts [c1_other] initial,
     [LocalStorageSet (lit "blogPosts") (stringify [c1_other])]).
Proof.
  refine (proj2 (proj2 (@blog_update_of_missing_record c1_clock blog_editing
                          c1_post _ _))).
  - reflexivity.
  - vm_compute; reflexivity.
Defined.

Lemma blog_create_unique_iff_fresh_witness :
  NoDup (map BlogPost.id (posts (fst (handleSubmit c1_clock blog_creating)))).
Proof.
  refine (proj2 (@blog_create_unique_iff_fresh c1_clock blog_creating _ _ _) _).
  - reflexivity.
  - vm_compute; reflexivity.
  - repeat constructor; simpl; intuition discriminate.
  - vm_compute. intuition discriminate.
Defined.

Lemma blog_step_keeps_ids_unique_witness :
  NoDup (map BlogPost.id
           (posts (fst (BlogMachine.step (blog_editing, sto_written)
                          (BlogMachine.ClickSubmit c1_clock))))).
Proof.
  refine (@blog_step_keeps_ids_unique (blog_editing, sto_written)
            (BlogMachine.ClickSubmit c1_clock) _ _).
  - repeat constructor; simpl; intuition discriminate.
  - intros clock E. inversion E; subst. vm_compute. intuition discriminate.
Defined.

Lemma blog_storage_follows_screen_witness :
  mountEffect
    (snd (BlogMachine.run (setPosts [c1_other; c1_post] initial, sto_written)
            a_session)) initial
  = Mounted
      (setPosts
         (posts (fst (BlogMachine.run
                        (setPosts [c1_other; c1_post] initial, sto_written)
                        a_session))) initial).
Proof.
  refine (@blog_storage_follows_screen sto_written
            (setPosts [c1_other; c1_post] initial) a_session _).
  vm_compute; reflexivity.
Defined.

Lemma blog_edit_then_submit_unchanged_witness :
  posts (fst (handleSubmit c1_clock
                (handleEdit c1_post (setPosts [c1_other; c1_post] initial))))
  = [c1_other; c1_post].
Proof.
  refine (@blog_edit_then_submit_unchanged c1_clock
            (setPosts [c1_other; c1_post] initial) c1_post _ _ _ _).
  - simpl; auto.
  - repeat constructor; simpl; intuition discriminate.
  - vm_compute; discriminate.
  - vm_compute; discriminate.
Defined.

Lemma blog_edit_type_cancel_witness :
  editingPost
    (fst (BlogMachine.run (setPosts [c1_other; c1_post] initial, sto_written)
            (BlogMachine.ClickEdit 1
             :: [BlogMachine.TypeTitle (lit "x"); BlogMachine.TypeContent (lit "y")]
             ++ [BlogMachine.ClickCancel]))) = None.
Proof.
  refine (proj1 (proj2 (proj2 (@blog_edit_type_cancel
            (setPosts [c1_other; c1_post] initial) sto_written 1 c1_post
            [BlogMachine.TypeTitle (lit "x"); BlogMachine.TypeContent (lit "y")]
            _ _)))).
  - reflexivity.
  - reflexivity.
Defined.

End BlogAt.

Section FormsAt.
Import Samples MoreSamples.

Lemma blank_fields_are_missing_witness :
  AdminBlog.FormErrors.title
    (AdminBlog.collect_errors (BlogDraft.mk (lit "     ") (lit "x")))
  = Some (lit "Başlık zorunludur").
Proof.
  refine (proj1 (proj2 (proj2 (@blank_fields_are_missing has_scheme good_draft
                                 (BlogDraft.mk (lit "     ") (lit "x"))))) _).
  reflexivity.
Defined.

Lemma accepted_iff_witness :
  snd (AdminProjects.validateForm has_scheme projects_creating) = true.
Proof.
  refine (proj2 (proj1 (@accepted_iff has_scheme projects_creating blog_creating)) _).
  split; [split; [vm_compute; discriminate | vm_compute; lia]|].
  split; [split; [vm_compute; discriminate | vm_compute; lia]|].
  split; [left; reflexivity | right; vm_compute; reflexivity].
Defined.

Lemma tags_are_clean_witness :
  trim (lit "TypeScript") = lit "TypeScript".
Proof.
  refine (proj1 (proj2 (proj1 (@tags_are_clean (lit " React, ,TypeScript ,")
                                 AdminProjects.initial) (lit "TypeScript") _))).
  vm_compute. right. left. reflexivity.
Defined.

Lemma tags_read_back_witness :
  ProjectDraft.tags
    (AdminProjects.formData
       (AdminProjects.onTagsChange
          (ProjectsView.tagsValue [lit "React"; lit "TypeScript"; lit "React"])
          AdminProjects.initial))
  = [lit "React"; lit "TypeScript"; lit "React"].
Proof.
  refine (@tags_read_back [lit "React"; lit "TypeScript"; lit "React"]
            AdminProjects.initial _).
  intros t [<- | [<- | [<- | []]]]; vm_compute;
    (split; [discriminate | split; [reflexivity | intuition discriminate]]).
Defined.

Lemma projects_submit_success_witness :
  AdminProjects.handleSubmit has_scheme
    (AdminProjects.mkAnswers true true (Some [a_project])) projects_editing
  = (AdminProjects.mkState [a_project] None false None AdminProjects.emptyDraft
       AdminProjects.FormErrors.empty,
     [ApiUpdate (Project.id a_project) good_draft; ApiGetAll]).
Proof.
  refine (@projects_submit_success has_scheme
            (AdminProjects.mkAnswers true true (Some [a_project]))
            projects_editing [a_project] _ _ _).
  - vm_compute; reflexivity.
  - reflexivity.
  - reflexivity.
Defined.

Lemma projects_submit_failures_witness :
  AdminProjects.formData
    (fst (AdminProjects.handleSubmit has_scheme answers_refused projects_editing))
  = good_draft
  /\ snd (AdminProjects.handleSubmit has_scheme answers_no_reload projects_creating)
     = [ApiCreate good_draft; ApiGetAll; ConsoleError].
Proof.
  destruct (@projects_submit_failures has_scheme answers_refused projects_editing)
    as [H _]; [vm_compute; reflexivity|].
  destruct (@projects_submit_failures has_scheme answers_no_reload
              projects_creating) as [_ H']; [vm_compute; reflexivity|].
  rewrite (H eq_refl), (H' eq_refl eq_refl). split; reflexivity.
Defined.

Lemma projects_delete_outcomes_witness :
  AdminProjects.handleDelete answers_refused (lit "p1") projects_editing
  = (AdminProjects.mkState [] (Some a_project) false
       (Some (lit "Silme işlemi sırasında bir hata oluştu")) good_draft
       AdminProjects.FormErrors.empty,
     [Confirm AdminProjects.confirmDelete; ApiDelete (lit "p1"); ConsoleError]).
Proof.
  refine (proj2 (proj2 (@projects_delete_outcomes answers_refused (lit "p1")
                          projects_editing)) _ _); reflexivity.
Defined.

Lemma projects_request_pattern_witness :
  In ApiGetAll
     (snd (AdminProjects.handleSubmit has_scheme answers_ok projects_creating)).
Proof.
  refine (proj2 (proj1 (proj2 (proj2 (@projects_request_pattern has_scheme
            answers_ok (lit "p1") projects_creating)))) _).
  split; [vm_compute; reflexivity | reflexivity].
Defined.

Lemma projects_edit_fills_draft_witness :
  AdminProjects.FormErrors.image
    (AdminProjects.collect_errors has_scheme
       (AdminProjects.formData
          (AdminProjects.handleEdit a_project AdminProjects.initial))) = None
  /\ AdminProjects.resetForm
       (AdminProjects.handleEdit a_project AdminProjects.initial)
     = AdminProjects.initial.
Proof.
  destruct (@projects_edit_fills_draft has_scheme answers_ok a_project
              AdminProjects.initial) as (_ & H & _ & _ & H').
  split; [apply H; reflexivity | apply H'; reflexivity].
Defined.

End FormsAt.

Section ImageAt.
Import Image Samples.

Lemma image_shows_source_until_failure_witness :
  img_src (view (run (mount (image_props None))
                     [Rerender (mkProps (Some (lit "/images/b.png")) None None None);
                      Rerender (image_props (Some 1))]))
  = Some (lit "/images/photo.png").
Proof.
  refine (proj2 (@image_shows_source_until_failure (image_props None)
            [Rerender (mkProps (Some (lit "/images/b.png")) None None None);
             Rerender (image_props (Some 1))] _)).
  intros [H | [H | []]]; discriminate.
Defined.

Lemma image_callers_handler_hides_failures_witness :
  error (state (run (mount (image_props (Some 1)))
                    [LoadFailure; Rerender (image_props (Some 2)); LoadFailure]))
  = false.
Proof.
  refine (proj1 (@image_callers_handler_hides_failures (image_props (Some 1))
            [LoadFailure; Rerender (image_props (Some 2)); LoadFailure] _ _)).
  - discriminate.
  - intros q [H | [H | [H | []]]]; try discriminate.
    inversion H; subst. discriminate.
Defined.

End ImageAt.
